(** * Telegram support bot: routing engine and directory store

    A shallow embedding of [database.js] (the sql.js-backed directory
    store) and of the two message handlers of the bot ([bot.on("text")]
    and [bot.on("voice")]), followed by the properties of the routing
    and session-state engine.

    Modelling conventions.
    - Telegram ids, row ids and message ids are [Z]; SQL [TEXT] is [string]
      (a sequence of bytes, compared bytewise as SQLite's BINARY collation
      does).
    - The [is_active] column only ever receives the literals 0 and 1, and
      is read through [is_active = 1] or JavaScript truthiness; it is a
      [bool].
    - Tables with an [INTEGER PRIMARY KEY] that the code only reaches by
      key ([admins], [agent_sessions], [message_mappings]) are finite sets
      and finite maps; [agents] and [conversation_logs] are lists of rows in
      rowid order, [agents] together with its AUTOINCREMENT counter.
    - [saveDb] writes the whole database to disk: every call appends the
      snapshot it writes to the trace of the world.  Every call into the
      Telegram client is appended to the same trace, so the order of sends
      and writes can be read off it. *)

From Stdlib Require Import ZArith String Ascii List Lia.
From stdpp Require Import base tactics option list sorting gmap strings pretty.

Local Open Scope Z_scope.

(** JavaScript truthiness of a value that is [null] or a number. *)
Definition truthy (v : option Z) : bool :=
  match v with
  | Some n => negb (n =? 0)
  | None => false
  end.

(** * database.js *)
Module Database.

Record Agent := mkAgent {
  a_id : Z;
  a_telegram_id : Z;
  a_name : string;
  a_is_active : bool
}.

(** A row of [agent_sessions] or [message_mappings] without its key: the
    object [{ userId, userName }] that the getters return. *)
Record UserRef := mkUserRef {
  userId : Z;
  userName : string
}.

Record LogEntry := mkLogEntry {
  timestamp : string;
  user_id : Z;
  user_name : string;
  agent_id : Z;
  agent_name : string;
  direction : string;
  message : string
}.

Record Db := mkDb {
  agents : list Agent;
  agents_seq : Z;
  admins : gset Z;
  conversation_logs : list LogEntry;
  agent_sessions : gmap Z UserRef;
  message_mappings : gmap Z UserRef
}.

(** Calls into the Telegram client.  [markdown] is the
    [parse_mode: "Markdown"] option; a voice caption is always sent with
    it. *)
Inductive Call :=
| SendMessage (chat_id : Z) (text : string) (markdown : bool)
| SendVoice (chat_id : Z) (file_id : string) (caption : option string)
| Reply (text : string).

Inductive Event :=
| Persist (snapshot : Db)
| Transport (c : Call).

Record World := mkWorld {
  db : Db;
  trace : list Event
}.

Record Result := mkResult {
  success : bool;
  result_message : string
}.

(** The database that [initDb] creates when there is no file. *)
Definition empty_db : Db :=
  mkDb [] 0 ∅ [] ∅ ∅.

Definition init_world : World := mkWorld empty_db [].

(** [db.run] with a statement that changes the in-memory database. *)
Definition run (f : Db → Db) (w : World) : World :=
  mkWorld (f (db w)) (trace w).

Definition saveDb (w : World) : World :=
  mkWorld (db w) (trace w ++ [Persist (db w)]).

(** ** Admin management *)

Definition insert_admin (telegramId : Z) (d : Db) : Db :=
  mkDb (agents d) (agents_seq d) ({[telegramId]} ∪ admins d)
       (conversation_logs d) (agent_sessions d) (message_mappings d).

Definition delete_admin (telegramId : Z) (d : Db) : Db :=
  mkDb (agents d) (agents_seq d) (admins d ∖ {[telegramId]})
       (conversation_logs d) (agent_sessions d) (message_mappings d).

Definition isAdmin (d : Db) (telegramId : Z) : bool :=
  bool_decide (telegramId ∈ admins d).

(** The insert throws on a duplicate primary key; the [catch] returns
    [false]. *)
Definition addAdmin (telegramId : Z) (w : World) : bool * World :=
  if isAdmin (db w) telegramId then (false, w)
  else (true, saveDb (run (insert_admin telegramId) w)).

(** The returned flag of [removeAdmin] is read from the connection after
    [saveDb]; only its effect on the database is modelled. *)
Definition removeAdmin (telegramId : Z) (w : World) : World :=
  saveDb (run (delete_admin telegramId) w).

Definition getAllAdmins (d : Db) : list Z := elements (admins d).

(** ** Agent management *)

(** Largest rowid of SQLite; an AUTOINCREMENT insert past it fails. *)
Definition max_rowid : Z := 2 ^ 63 - 1.

Definition has_telegram_id (telegramId : Z) (a : Agent) : bool :=
  a_telegram_id a =? telegramId.

Definition has_id (agentId : Z) (a : Agent) : bool :=
  a_id a =? agentId.

Definition isAgent (d : Db) (telegramId : Z) : bool :=
  existsb (has_telegram_id telegramId) (agents d).

Definition getAgentByTelegramId (d : Db) (telegramId : Z) : option Agent :=
  find (has_telegram_id telegramId) (agents d).

Definition insert_agent (telegramId : Z) (name : string) (d : Db) : Db :=
  mkDb (agents d ++ [mkAgent (agents_seq d + 1) telegramId name false])
       (agents_seq d + 1) (admins d)
       (conversation_logs d) (agent_sessions d) (message_mappings d).

(** [telegram_id] is UNIQUE: a second insert of the same id throws. *)
Definition addAgent (telegramId : Z) (name : string) (w : World)
  : bool * World :=
  if isAgent (db w) telegramId || (max_rowid <=? agents_seq (db w))
  then (false, w)
  else (true, saveDb (run (insert_agent telegramId name) w)).

Definition delete_agent (agentId : Z) (d : Db) : Db :=
  mkDb (filter (λ a, a_id a ≠ agentId) (agents d))
       (agents_seq d) (admins d)
       (conversation_logs d) (agent_sessions d) (message_mappings d).

Definition delete_session (agentTelegramId : Z) (d : Db) : Db :=
  mkDb (agents d) (agents_seq d) (admins d)
       (conversation_logs d) (delete agentTelegramId (agent_sessions d))
       (message_mappings d).

Definition removeAgent (agentId : Z) (w : World) : Result * World :=
  match find (has_id agentId) (agents (db w)) with
  | None => (mkResult false "Agent not found", w)
  | Some row =>
      let telegramId := a_telegram_id row in
      let w1 := run (delete_agent agentId) w in
      let w2 := run (delete_admin telegramId) w1 in
      let w3 := run (delete_session telegramId) w2 in
      (mkResult true "Agent removed successfully", saveDb w3)
  end.

Definition set_active (b : bool) (a : Agent) : Agent :=
  mkAgent (a_id a) (a_telegram_id a) (a_name a) b.

(** [UPDATE agents SET is_active = 0] *)
Definition clear_active (d : Db) : Db :=
  mkDb (set_active false <$> agents d)
       (agents_seq d) (admins d)
       (conversation_logs d) (agent_sessions d) (message_mappings d).

(** [UPDATE agents SET is_active = b WHERE id = agentId] *)
Definition update_active (b : bool) (agentId : Z) (d : Db) : Db :=
  mkDb ((λ a, if has_id agentId a then set_active b a else a) <$> agents d)
       (agents_seq d) (admins d)
       (conversation_logs d) (agent_sessions d) (message_mappings d).

Definition setActiveAgent (agentId : Z) (w : World) : Result * World :=
  match find (has_id agentId) (agents (db w)) with
  | None => (mkResult false "Agent not found", w)
  | Some row =>
      let agentName := a_name row in
      let w1 := run clear_active w in
      let w2 := run (update_active true agentId) w1 in
      (mkResult true ("Agent '" +:+ agentName +:+ "' is now active"),
       saveDb w2)
  end.

Definition deactivateAgent (agentId : Z) (w : World) : Result * World :=
  match find (has_id agentId) (agents (db w)) with
  | None => (mkResult false "Agent not found", w)
  | Some row =>
      let agentName := a_name row in
      let w1 := run (update_active false agentId) w in
      (mkResult true ("Agent '" +:+ agentName +:+ "' is now offline"),
       saveDb w1)
  end.

(** The first row with [is_active = 1]. *)
Definition getActiveAgent (d : Db) : option Agent :=
  find a_is_active (agents d).

Definition getAllAgents (d : Db) : list Agent := agents d.

(** ** Session tracking *)

Definition insert_session (agentTelegramId : Z) (u : UserRef) (d : Db) : Db :=
  mkDb (agents d) (agents_seq d) (admins d)
       (conversation_logs d) (<[agentTelegramId := u]> (agent_sessions d))
       (message_mappings d).

Definition setAgentSession (agentTelegramId userId : Z) (userName : string)
    (w : World) : World :=
  let w1 := run (delete_session agentTelegramId) w in
  let w2 := run (insert_session agentTelegramId (mkUserRef userId userName)) w1 in
  saveDb w2.

Definition getAgentSession (d : Db) (agentTelegramId : Z) : option UserRef :=
  agent_sessions d !! agentTelegramId.

(** ** Message mapping *)

(** [INSERT OR REPLACE] *)
Definition replace_mapping (agentMessageId : Z) (u : UserRef) (d : Db) : Db :=
  mkDb (agents d) (agents_seq d) (admins d)
       (conversation_logs d) (agent_sessions d)
       (<[agentMessageId := u]> (message_mappings d)).

Definition addMessageMapping (agentMessageId userId : Z) (userName : string)
    (w : World) : World :=
  saveDb (run (replace_mapping agentMessageId (mkUserRef userId userName)) w).

Definition getMessageMapping (d : Db) (agentMessageId : Z) : option UserRef :=
  message_mappings d !! agentMessageId.

(** ** Conversation logging *)

Definition insert_log (e : LogEntry) (d : Db) : Db :=
  mkDb (agents d) (agents_seq d) (admins d)
       (conversation_logs d ++ [e]) (agent_sessions d) (message_mappings d).

(** [now] is the value of [new Date().toISOString()] at the call. *)
Definition logMessage (now : string) (userId : Z) (userName : string)
    (agentId : Z) (agentName : string) (direction message : string)
    (w : World) : World :=
  saveDb (run (insert_log
    (mkLogEntry now userId userName agentId agentName direction message)) w).

(** [ORDER BY timestamp DESC]: a sort of the rows by decreasing
    timestamp.  SQL leaves the order of rows with equal timestamps open;
    nothing below depends on it. *)
Definition newer_first (e1 e2 : LogEntry) : Prop :=
  String.le (timestamp e2) (timestamp e1).

Definition order_by_timestamp_desc (rows : list LogEntry) : list LogEntry :=
  merge_sort newer_first rows.

(** [LIMIT n]: SQLite reads a negative limit as no limit. *)
Definition sql_limit {A} (n : Z) (rows : list A) : list A :=
  if n <? 0 then rows else take (Z.to_nat n) rows.

(** [userId] is [null] or a number; every caller passes both arguments.
    [if (userId)] is JavaScript truthiness. *)
Definition getLogs (d : Db) (userId : option Z) (limit : Z) : list LogEntry :=
  if truthy userId then
    sql_limit limit (order_by_timestamp_desc
      (filter (λ e, Some (user_id e) = userId) (conversation_logs d)))
  else
    sql_limit limit (order_by_timestamp_desc (conversation_logs d)).

End Database.

(** * The message handlers of the bot *)
Module Bot.
Import Database.

(** What the Telegram client answers to a call: the [message_id] of the
    message it sent, or an error with its message. *)
Inductive Response :=
| Sent (message_id : Z)
| Failed (error_message : string).

(** Outcome of the body of the [try] of [transcribeVoice]: the file is
    downloaded and transcribed, or one of the steps throws. *)
Inductive Transcription :=
| Transcribed (text : string)
| TranscriptionError.

(** Everything outside the process.  [respond k] is the answer of
    Telegram to the [k]-th call that the process makes, [now] the clock
    reading used for a log entry, [whisper] the transcription service. *)
Record Env := mkEnv {
  respond : nat → Response;
  now : string;
  OPENAI_API_KEY : string;
  whisper : string → Transcription
}.

Inductive Outcome (A : Type) :=
| Ok (a : A)
| Throw (error_message : string).
Arguments Ok {A} a.
Arguments Throw {A} error_message.

(** A handler: a computation over the world that returns or throws. *)
Definition H (A : Type) : Type := World → Outcome A * World.

Definition ret {A} (a : A) : H A := λ w, (Ok a, w).

Definition bind {A B} (m : H A) (f : A → H B) : H B := λ w,
  match m w with
  | (Ok a, w') => f a w'
  | (Throw e, w') => (Throw e, w')
  end.

Notation "x <- m ;; k" := (bind m (λ x, k))
  (at level 100, m at next level, right associativity).
Notation "m ;; k" := (bind m (λ _, k))
  (at level 100, right associativity).

Definition try_catch {A} (body : H A) (handler : string → H A) : H A :=
  λ w, match body w with
       | (Ok a, w') => (Ok a, w')
       | (Throw e, w') => handler e w'
       end.

Definition query {A} (f : Db → A) : H A := λ w, (Ok (f (db w)), w).

Definition exec (f : World → World) : H unit := λ w, (Ok tt, f w).

Definition transport_calls (t : list Event) : list Call :=
  omap (λ e, match e with Transport c => Some c | Persist _ => None end) t.

(** The world after a call to the Telegram client was made. *)
Definition emit (c : Call) (w : World) : World :=
  mkWorld (db w) (trace w ++ [Transport c]).

(** Number of calls that the process has made so far. *)
Definition calls_made (w : World) : nat :=
  length (transport_calls (trace w)).

Definition call (env : Env) (c : Call) : H Z := λ w,
  match respond env (calls_made w) with
  | Sent message_id => (Ok message_id, emit c w)
  | Failed e => (Throw e, emit c w)
  end.

(** [ctx.reply(text)] *)
Definition reply (env : Env) (text : string) : H unit :=
  call env (Reply text);; ret tt.

(** [haystack.includes(needle)] *)
Fixpoint includes (needle haystack : string) : bool :=
  String.prefix needle haystack ||
  match haystack with
  | EmptyString => false
  | String _ rest => includes needle rest
  end.

Definition nl : string := String (ascii_of_nat 10) EmptyString.

(** ** The update that a handler receives *)

Record From := mkFrom {
  from_id : Z;
  first_name : string;
  username : option string
}.

Record TextCtx := mkTextCtx {
  t_from : From;
  t_text : string;
  t_reply_to_message : option Z
}.

Record VoiceCtx := mkVoiceCtx {
  v_from : From;
  v_file_id : string;
  v_reply_to_message : option Z
}.

(** [ctx.from.first_name || "Unknown"] *)
Definition userName_of (f : From) : string :=
  if String.eqb (first_name f) "" then "Unknown" else first_name f.

(** [ctx.from.username ? `@${ctx.from.username}` : ""] *)
Definition userUsername_of (f : From) : string :=
  match username f with
  | Some u => if String.eqb u "" then "" else "@" +:+ u
  | None => ""
  end.

(** [userUsername ? `${userName} (${userUsername})` : userName] *)
Definition userDisplayName_of (f : From) : string :=
  if String.eqb (userUsername_of f) "" then userName_of f
  else userName_of f +:+ " (" +:+ userUsername_of f +:+ ")".

(** ** Reply target of an agent

    The same statements open the agent branch of both handlers: the
    mapping of the message replied to, then the session of the agent. *)
Record Target := mkTarget {
  targetUserId : option Z;
  targetUserName : string
}.

Definition target_of_mapping (d : Db) (reply_to_message : option Z) : Target :=
  match reply_to_message with
  | Some message_id =>
      match getMessageMapping d message_id with
      | Some mapping => mkTarget (Some (userId mapping)) (userName mapping)
      | None => mkTarget None "User"
      end
  | None => mkTarget None "User"
  end.

Definition resolve_target (d : Db) (reply_to_message : option Z)
    (senderId : Z) : Target :=
  let t := target_of_mapping d reply_to_message in
  if negb (truthy (targetUserId t)) then
    match getAgentSession d senderId with
    | Some session => mkTarget (Some (userId session)) (userName session)
    | None => t
    end
  else t.

Definition offline_notice : string :=
  "❌ You are currently OFFLINE. Please ask the admin to make you active in the dashboard before replying.".

(** ** [bot.on("text")] *)

Definition admin_text_notice : string :=
  "ℹ️ As an admin, your messages aren't routed. Use /start for commands.".

Definition no_target_text_notice : string :=
  "❌ No user to reply to. Reply to a specific message or wait for a new user message.".

Definition agent_text (env : Env) (ctx : TextCtx) : H unit :=
  let senderId := from_id (t_from ctx) in
  let messageText := t_text ctx in
  t <- query (λ d, resolve_target d (t_reply_to_message ctx) senderId);;
  if negb (truthy (targetUserId t)) then reply env no_target_text_notice
  else
    let targetUserId := default 0 (targetUserId t) in
    let targetUserName := targetUserName t in
    agent <- query (λ d, getAgentByTelegramId d senderId);;
    match agent with
    | None => reply env offline_notice
    | Some agent =>
        if negb (a_is_active agent) then reply env offline_notice
        else
          try_catch
            (call env (SendMessage targetUserId messageText false);;
             exec (logMessage (now env) targetUserId targetUserName
                         (a_id agent) (a_name agent) "agent_to_user" messageText);;
             reply env ("✅ Reply sent to " +:+ targetUserName +:+ " (ID: "
                        +:+ pretty targetUserId +:+ ")"))
            (λ e, reply env ("❌ Failed to send: " +:+ e))
    end.

Definition forwardText (f : From) (messageText : string) : string :=
  "📩 *New message from user:*" +:+ nl +:+ nl +:+
  "👤 User: " +:+ userName_of f +:+ " " +:+ userUsername_of f +:+
  " (ID: `" +:+ pretty (from_id f) +:+ "`)" +:+ nl +:+
  "💬 Message:" +:+ nl +:+ messageText.

Definition forward_error_notice (e : string) : string :=
  if includes "chat not found" e || includes "bot was blocked" e
  then "❌ Technical Error: The agent hasn't started the bot or has blocked it. Agents must send /start to the bot first!"
  else "Sorry, there was an error sending your message. Please try again.".

Definition user_text (env : Env) (ctx : TextCtx) : H unit :=
  let senderId := from_id (t_from ctx) in
  let messageText := t_text ctx in
  activeAgent <- query getActiveAgent;;
  match activeAgent with
  | None =>
      reply env "Sorry, no support agents are available right now. Please try again later."
  | Some activeAgent =>
      let userDisplayName := userDisplayName_of (t_from ctx) in
      try_catch
        (sentMsg <- call env (SendMessage (a_telegram_id activeAgent)
                               (forwardText (t_from ctx) messageText) true);;
         exec (addMessageMapping sentMsg senderId userDisplayName);;
         exec (setAgentSession (a_telegram_id activeAgent) senderId
                     userDisplayName);;
         exec (logMessage (now env) senderId userDisplayName
                     (a_id activeAgent) (a_name activeAgent)
                     "user_to_agent" messageText);;
         reply env "✅ Your message has been received. An agent will respond shortly.")
        (λ e, reply env (forward_error_notice e))
  end.

Definition on_text (env : Env) (ctx : TextCtx) : H unit :=
  let senderId := from_id (t_from ctx) in
  if String.prefix "/" (t_text ctx) then ret tt
  else
    admin <- query (λ d, isAdmin d senderId);;
    if admin then reply env admin_text_notice
    else
      agent <- query (λ d, isAgent d senderId);;
      if agent then agent_text env ctx else user_text env ctx.

(** ** [transcribeVoice] *)

Definition transcription_error_placeholder : string :=
  "[Error transcribing voice message]".

Definition transcribeVoice (env : Env) (fileId : string) : string :=
  if String.eqb (OPENAI_API_KEY env) "YOUR_OPENAI_API_KEY"
  then "[Voice message - please configure OpenAI API key to transcribe]"
  else match whisper env fileId with
       | Transcribed text => text
       | TranscriptionError => transcription_error_placeholder
       end.

(** ** [bot.on("voice")] *)

Definition admin_voice_notice : string :=
  "Admin voice messages are not routed. Use /start for instructions.".

Definition no_target_voice_notice : string :=
  "❌ No user to reply to. Long-press a user's message and select 'Reply' to send them a voice note.".

Definition agent_voice (env : Env) (ctx : VoiceCtx) : H unit :=
  let senderId := from_id (v_from ctx) in
  t <- query (λ d, resolve_target d (v_reply_to_message ctx) senderId);;
  if negb (truthy (targetUserId t)) then reply env no_target_voice_notice
  else
    let targetUserId := default 0 (targetUserId t) in
    let targetUserName := targetUserName t in
    agent <- query (λ d, getAgentByTelegramId d senderId);;
    match agent with
    | None => reply env offline_notice
    | Some agent =>
        if negb (a_is_active agent) then reply env offline_notice
        else
          try_catch
            (call env (SendVoice targetUserId (v_file_id ctx) None);;
             exec (logMessage (now env) targetUserId targetUserName
                         (a_id agent) (a_name agent) "agent_to_user"
                         "[Voice Message]");;
             reply env ("✅ Voice reply sent to " +:+ targetUserName))
            (λ e, reply env ("❌ Failed to send voice reply: " +:+ e))
    end.

Definition processing_notice : string :=
  "🎤 Processing your voice message...".

Definition voice_error_notice : string :=
  "Sorry, there was an error sending your voice message. If you are an agent, make sure you have started the bot!".

Definition forwardHeader (f : From) (transcription : string) : string :=
  "📩 *New VOICE message from user:*" +:+ nl +:+ nl +:+
  "👤 User: " +:+ userName_of f +:+ " " +:+ userUsername_of f +:+
  " (ID: `" +:+ pretty (from_id f) +:+ "`)" +:+ nl +:+
  "📝 Transcription:" +:+ nl +:+ "_" +:+ transcription +:+ "_".

Definition user_voice (env : Env) (ctx : VoiceCtx) : H unit :=
  let senderId := from_id (v_from ctx) in
  activeAgent <- query getActiveAgent;;
  match activeAgent with
  | None => reply env "Sorry, no support agents are available right now."
  | Some activeAgent =>
      let userDisplayName := userDisplayName_of (v_from ctx) in
      reply env processing_notice;;
      let transcription := transcribeVoice env (v_file_id ctx) in
      try_catch
        (sentVoice <- call env (SendVoice (a_telegram_id activeAgent)
                                 (v_file_id ctx)
                                 (Some (forwardHeader (v_from ctx) transcription)));;
         exec (addMessageMapping sentVoice senderId userDisplayName);;
         exec (setAgentSession (a_telegram_id activeAgent) senderId
                     userDisplayName);;
         exec (logMessage (now env) senderId userDisplayName
                     (a_id activeAgent) (a_name activeAgent)
                     "user_to_agent" ("[Voice] " +:+ transcription));;
         reply env "✅ Your voice message has been sent to an agent. They can listen to it and respond shortly.")
        (λ e, reply env voice_error_notice)
  end.

Definition on_voice (env : Env) (ctx : VoiceCtx) : H unit :=
  let senderId := from_id (v_from ctx) in
  agent <- query (λ d, isAgent d senderId);;
  if agent then agent_voice env ctx
  else
    admin <- query (λ d, isAdmin d senderId);;
    if admin then reply env admin_voice_notice else user_voice env ctx.

End Bot.

Import Database Bot.

(** * Sequences of operations

    Everything that changes the database: the exported mutators of
    [database.js] (the admin commands and the HTTP routes call exactly
    these) and the two message handlers. *)
Inductive Op :=
| OpAddAdmin (telegramId : Z)
| OpRemoveAdmin (telegramId : Z)
| OpAddAgent (telegramId : Z) (name : string)
| OpRemoveAgent (agentId : Z)
| OpSetActiveAgent (agentId : Z)
| OpDeactivateAgent (agentId : Z)
| OpSetAgentSession (agentTelegramId userId : Z) (userName : string)
| OpAddMessageMapping (agentMessageId userId : Z) (userName : string)
| OpLogMessage (e : LogEntry)
| OpText (env : Env) (ctx : TextCtx)
| OpVoice (env : Env) (ctx : VoiceCtx).

Definition apply_op (w : World) (o : Op) : World :=
  match o with
  | OpAddAdmin t => (addAdmin t w).2
  | OpRemoveAdmin t => removeAdmin t w
  | OpAddAgent t n => (addAgent t n w).2
  | OpRemoveAgent i => (removeAgent i w).2
  | OpSetActiveAgent i => (setActiveAgent i w).2
  | OpDeactivateAgent i => (deactivateAgent i w).2
  | OpSetAgentSession a u n => setAgentSession a u n w
  | OpAddMessageMapping m u n => addMessageMapping m u n w
  | OpLogMessage e =>
      logMessage (timestamp e) (user_id e) (user_name e) (agent_id e)
        (agent_name e) (direction e) (message e) w
  | OpText env ctx => (on_text env ctx w).2
  | OpVoice env ctx => (on_voice env ctx w).2
  end.

Definition apply_ops (ops : list Op) (w : World) : World :=
  foldl apply_op w ops.

(** The rows with [is_active = 1]. *)
Definition active_agents (d : Db) : list Agent :=
  filter (λ a, a_is_active a = true) (agents d).

(** I1: at most one agent is active. *)
Definition single_active (d : Db) : Prop :=
  (length (active_agents d) ≤ 1)%nat.

(** What SQLite maintains for the [agents] table: [id] is a primary key
    below the AUTOINCREMENT counter. *)
Definition agents_keyed (d : Db) : Prop :=
  NoDup (a_id <$> agents d) ∧ Forall (λ a, a_id a ≤ agents_seq d) (agents d).

Definition exists_agent (d : Db) (agentId : Z) : Prop :=
  is_Some (find (has_id agentId) (agents d)).

(** The two row updates of [update_active]. *)
Definition activate_row (agentId : Z) (a : Agent) : Agent :=
  if has_id agentId a then set_active true a else a.

Definition deactivate_row (agentId : Z) (a : Agent) : Agent :=
  if has_id agentId a then set_active false a else a.

(** A computation keeps the part [f] of the database. *)
Definition keeps {X A} (f : Db → X) (m : H A) : Prop :=
  ∀ w, f (db (m w).2) = f (db w).

(** The tables that the admin commands manage. *)
Definition directory (d : Db) : list Agent * Z * gset Z :=
  (agents d, agents_seq d, admins d).

(** The state of the [agents] table that every operation maintains. *)
Definition db_ok (d : Db) : Prop :=
  agents_keyed d ∧ single_active d.

(** Events that only answer the sender of the update. *)
Definition is_reply (e : Event) : Prop :=
  match e with
  | Transport (Reply _) => True
  | _ => False
  end.

(** The world after the three writes that follow a forward to the agent
    [a] that Telegram sent as message [message_id]: the mapping of that
    message, the session of the agent and the log entry. *)
Definition recorded (env : Env) (a : Agent) (f : From) (message_id : Z)
    (logged : string) (w : World) : World :=
  logMessage (now env) (from_id f) (userDisplayName_of f) (a_id a) (a_name a)
    "user_to_agent" logged
    (setAgentSession (a_telegram_id a) (from_id f) (userDisplayName_of f)
       (addMessageMapping message_id (from_id f) (userDisplayName_of f) w)).

(** * A small deployment

    One agent, Ann, who is made active; Telegram accepts every call and
    numbers the messages it sends from 100; the transcription service is
    down.  Bob writes first, then Cy. *)
Definition demo_env : Env :=
  mkEnv (λ k, Sent (100 + Z.of_nat k)) "2024-05-01T10:00:00.000Z"
        "sk-live" (λ _, TranscriptionError).

Definition bob : From := mkFrom 41 "Bob" (Some "bob").
Definition cy : From := mkFrom 42 "Cy" None.
Definition ann : From := mkFrom 7 "Ann" None.

Definition demo_pool : World :=
  apply_ops [OpAddAgent 7 "Ann"; OpSetActiveAgent 1] init_world.

Definition demo_ops : list Op :=
  [OpAddAgent 7 "Ann"; OpSetActiveAgent 1;
   OpText demo_env (mkTextCtx bob "hello" None);
   OpText demo_env (mkTextCtx cy "hi" None)].

Definition demo_two_users : World := apply_ops demo_ops init_world.

(** Ann is taken offline after the two users wrote. *)
Definition demo_offline : World :=
  apply_ops [OpDeactivateAgent 1] demo_two_users.

(** Telegram refuses every call: the agent blocked the bot. *)
Definition demo_env_blocked : Env :=
  mkEnv (λ _, Failed "Forbidden: bot was blocked by the user")
        "2024-05-01T10:00:00.000Z" "sk-live" (λ _, TranscriptionError).

(** Ann is made an admin as well, after the two users wrote. *)
Definition demo_admin_agent : World :=
  apply_ops [OpAddAdmin 7] demo_two_users.

(** A log with one message of Bob and a later one of Cy. *)
Definition entry_bob : LogEntry :=
  mkLogEntry "2024-05-01T10:00:00.000Z" 41 "Bob (@bob)" 1 "Ann"
    "user_to_agent" "hello".

Definition entry_cy : LogEntry :=
  mkLogEntry "2024-05-01T10:05:00.000Z" 42 "Cy" 1 "Ann" "user_to_agent" "hi".

Definition demo_logs : Db :=
  db (apply_ops [OpLogMessage entry_bob; OpLogMessage entry_cy] init_world).

(** A computation maintains the property [P] of the database. *)
Definition preserves {A} (P : Db → Prop) (m : H A) : Prop :=
  ∀ w, P (db w) → P (db (m w).2).

(** Telegram never issues the user id 0.  The user ids that the sessions
    and the mappings store are ids of senders of updates. *)
Definition stored_ids_ok (d : Db) : Prop :=
  map_Forall (λ _ u, userId u ≠ 0) (message_mappings d)
  ∧ map_Forall (λ _ u, userId u ≠ 0) (agent_sessions d).

Definition op_ids_ok (o : Op) : Prop :=
  match o with
  | OpSetAgentSession _ userId _ => userId ≠ 0
  | OpAddMessageMapping _ userId _ => userId ≠ 0
  | OpText _ ctx => from_id (t_from ctx) ≠ 0
  | OpVoice _ ctx => from_id (v_from ctx) ≠ 0
  | _ => True
  end.

(** * Start-up and the admin commands *)



(** A call of a function of [database.js] that returns a value. *)
Definition run_db {A} (f : World → A * World) : H A := λ w,
  let '(a, w') := f w in (Ok a, w').

(** The update of a command.  [ctx.reply(text, extra)] is
    [sendMessage(ctx.chat.id, text, extra)]. *)
Record CommandCtx := mkCommandCtx {
  c_from : From;
  c_chat_id : Z;
  c_text : string
}.

Definition reply_markdown (env : Env) (ctx : CommandCtx) (text : string)
  : H unit :=
  call env (SendMessage (c_chat_id ctx) text true);; ret tt.

(** [s.split(sep)] for a separator of one character. *)
Fixpoint split_on (sep : ascii) (s : string) : list string :=
  match s with
  | EmptyString => [EmptyString]
  | String c rest =>
      if Ascii.eqb c sep then EmptyString :: split_on sep rest
      else match split_on sep rest with
           | part :: parts => String c part :: parts
           | [] => [String c EmptyString]
           end
  end.

(** [parts.join(sep)] *)
Fixpoint join_with (sep : string) (parts : list string) : string :=
  match parts with
  | [] => ""
  | [part] => part
  | part :: parts => part +:+ sep +:+ join_with sep parts
  end.

(** [ctx.message.text.split(" ").slice(1)] *)
Definition command_args (ctx : CommandCtx) : list string :=
  drop 1 (split_on " "%char (c_text ctx)).

Definition admin_only_notice : string := "❌ Admin only command.".

(** [result.success ? `✅ ${result.message}` : `❌ ${result.message}`] *)
Definition result_notice (r : Result) : string :=
  if success r then "✅ " +:+ result_message r else "❌ " +:+ result_message r.

Section Commands.
(** [parseInt] of JavaScript: [None] is [NaN]. *)
Variable parseInt : string → option Z.
(** What [db.getRowsModified() > 0] gives when [removeAdmin] reads it
    after [saveDb]. *)
Variable rows_modified : World → bool.

Definition addagent (env : Env) (ctx : CommandCtx) : H unit :=
  admin <- query (λ d, isAdmin d (from_id (c_from ctx)));;
  if negb admin then reply env admin_only_notice
  else
    let args := command_args ctx in
    if (length args <? 2)%nat
    then reply_markdown env ctx "Usage: `/addagent <telegram_id> <name>`"
    else
      let name := join_with " " (drop 1 args) in
      match parseInt (default "" (head args)) with
      | None => reply env "❌ Invalid telegram_id. Must be a number."
      | Some telegramId =>
          added <- run_db (addAgent telegramId name);;
          if added
          then reply env ("✅ Agent '" +:+ name +:+ "' added successfully!")
          else reply env "❌ Agent already exists."
      end.

Definition removeagent (env : Env) (ctx : CommandCtx) : H unit :=
  admin <- query (λ d, isAdmin d (from_id (c_from ctx)));;
  if negb admin then reply env admin_only_notice
  else
    let args := command_args ctx in
    if (length args <? 1)%nat
    then reply_markdown env ctx "Usage: `/removeagent <agent_id>`"
    else
      match parseInt (default "" (head args)) with
      | None => reply env "❌ Invalid agent_id. Must be a number."
      | Some agentId =>
          result <- run_db (removeAgent agentId);;
          reply env (result_notice result)
      end.

Definition setactive (env : Env) (ctx : CommandCtx) : H unit :=
  admin <- query (λ d, isAdmin d (from_id (c_from ctx)));;
  if negb admin then reply env admin_only_notice
  else
    let args := command_args ctx in
    if (length args <? 1)%nat
    then reply_markdown env ctx "Usage: `/setactive <agent_id>`"
    else
      match parseInt (default "" (head args)) with
      | None => reply env "❌ Invalid agent_id. Must be a number."
      | Some agentId =>
          result <- run_db (setActiveAgent agentId);;
          reply env (result_notice result)
      end.

Definition addadmin (env : Env) (ctx : CommandCtx) : H unit :=
  admin <- query (λ d, isAdmin d (from_id (c_from ctx)));;
  if negb admin then reply env admin_only_notice
  else
    let args := command_args ctx in
    if (length args <? 1)%nat
    then reply_markdown env ctx "Usage: `/addadmin <telegram_id>`"
    else
      match parseInt (default "" (head args)) with
      | None => reply env "❌ Invalid telegram_id. Must be a number."
      | Some adminId =>
          added <- run_db (addAdmin adminId);;
          if added
          then reply_markdown env ctx
                 ("✅ Admin `" +:+ pretty adminId +:+ "` added successfully!")
          else reply env "❌ Admin already exists."
      end.

Definition removeadmin (env : Env) (ctx : CommandCtx) : H unit :=
  admin <- query (λ d, isAdmin d (from_id (c_from ctx)));;
  if negb admin then reply env admin_only_notice
  else
    let args := command_args ctx in
    if (length args <? 1)%nat
    then reply_markdown env ctx "Usage: `/removeadmin <telegram_id>`"
    else
      match parseInt (default "" (head args)) with
      | None => reply env "❌ Invalid telegram_id. Must be a number."
      | Some adminId =>
          if adminId =? from_id (c_from ctx)
          then reply env "❌ You cannot remove yourself."
          else
            removed <- run_db (λ w, let w' := removeAdmin adminId w in
                                    (rows_modified w', w'));;
            if removed
            then reply_markdown env ctx
                   ("✅ Admin `" +:+ pretty adminId +:+ "` removed.")
            else reply env "❌ Admin not found."
      end.
End Commands.


(** The [telegram_id] column is UNIQUE. *)
Definition telegram_ids_unique (d : Db) : Prop :=
  NoDup (a_telegram_id <$> agents d).

(** The log of [d] continues [rows]. *)
Definition log_extends (rows : list LogEntry) (d : Db) : Prop :=
  rows `prefix_of` conversation_logs d.

(** What [parseInt] gives on the arguments of the examples below. *)
Definition demo_parseInt (s : string) : option Z :=
  if String.eqb s "7" then Some 7
  else if String.eqb s "8" then Some 8
  else if String.eqb s "1" then Some 1
  else None.


(** * The definitions on small inputs *)

Example includes_chat_not_found :
  includes "chat not found" "400: Bad Request: chat not found" = true.
Proof. reflexivity. Qed.

Example forward_error_notice_timeout :
  forward_error_notice "ETIMEDOUT"
  = "Sorry, there was an error sending your message. Please try again.".
Proof. reflexivity. Qed.

Example userDisplayName_with_username :
  userDisplayName_of bob = "Bob (@bob)".
Proof. reflexivity. Qed.

Example userDisplayName_without_names :
  userDisplayName_of (mkFrom 5 "" None) = "Unknown".
Proof. reflexivity. Qed.

Example sql_limit_two : sql_limit 2 [1; 2; 3] = [1; 2].
Proof. reflexivity. Qed.

Example sql_limit_negative : sql_limit (-1) [1; 2; 3] = [1; 2; 3].
Proof. reflexivity. Qed.

Example addAgent_twice : (addAgent 7 "Ann again" demo_pool).1 = false.
Proof. reflexivity. Qed.

Example demo_pool_active : (a_id <$> getActiveAgent (db demo_pool)) = Some 1.
Proof. reflexivity. Qed.

Example demo_two_users_mappings :
  getMessageMapping (db demo_two_users) 100 = Some (mkUserRef 41 "Bob (@bob)")
  ∧ getMessageMapping (db demo_two_users) 102 = Some (mkUserRef 42 "Cy").
Proof. by vm_compute. Qed.

Example transcribeVoice_not_configured :
  transcribeVoice (mkEnv (λ _, Sent 1) "" "YOUR_OPENAI_API_KEY"
                     (λ _, Transcribed "hello")) "voice-1"
  = "[Voice message - please configure OpenAI API key to transcribe]".
Proof. reflexivity. Qed.

Example getLogs_of_cy : getLogs demo_logs (Some 42) 20 = [entry_cy].
Proof. by vm_compute. Qed.

Example getLogs_newest_first : getLogs demo_logs None 1 = [entry_cy].
Proof. by vm_compute. Qed.

(** * Facts about the [agents] table *)
Section AgentRows.
Implicit Types (l : list Agent) (a : Agent) (d : Db) (w : World).

Lemma find_fmap_keeps_id (f : Agent → Agent) i l :
  (∀ a, a_id (f a) = a_id a) →
  find (has_id i) (f <$> l) = f <$> find (has_id i) l.
Proof.
  intros Hf. induction l as [|a l IH]; [done|].
  cbn. unfold has_id at 1. rewrite Hf. fold (has_id i a).
  destruct (has_id i a); [done|]. apply IH.
Qed.

Lemma fmap_keeps_ids (f : Agent → Agent) l :
  (∀ a, a_id (f a) = a_id a) → a_id <$> (f <$> l) = a_id <$> l.
Proof.
  intros Hf. rewrite <- list_fmap_compose. apply list_fmap_ext.
  intros ? a _. apply Hf.
Qed.

Lemma activate_row_id i a : a_id (activate_row i a) = a_id a.
Proof. unfold activate_row. by destruct (has_id i a). Qed.

Lemma deactivate_row_id i a : a_id (deactivate_row i a) = a_id a.
Proof. unfold deactivate_row. by destruct (has_id i a). Qed.

Lemma has_id_true i a : has_id i a = true ↔ a_id a = i.
Proof. unfold has_id. apply Z.eqb_eq. Qed.

Lemma has_id_false i a : has_id i a = false ↔ a_id a ≠ i.
Proof. unfold has_id. apply Z.eqb_neq. Qed.

(** After the two updates of [setActiveAgent] the first active row is the
    row of the agent that was activated. *)
Lemma find_active_after_activate b l :
  find a_is_active (activate_row b <$> (set_active false <$> l))
  = set_active true <$> find (has_id b) l.
Proof.
  induction l as [|a l IH]; [done|].
  cbn. unfold activate_row, has_id in *. cbn [a_id set_active].
  destruct (a_id a =? b); cbn; [done|]. apply IH.
Qed.

Lemma active_after_activate_length b l :
  length (filter (λ a, a_is_active a = true)
            (activate_row b <$> (set_active false <$> l)))
  = length (filter (λ a, a_id a = b) l).
Proof.
  induction l as [|a l IH]; [done|].
  cbn [fmap list_fmap]. rewrite !filter_cons.
  unfold activate_row, has_id in *. cbn [a_id set_active].
  destruct (Z.eqb_spec (a_id a) b) as [Heq|Hne]; cbn [a_is_active set_active].
  - rewrite !decide_True by done. cbn. by rewrite IH.
  - rewrite !decide_False by done. exact IH.
Qed.

Lemma key_absent i l :
  i ∉ a_id <$> l → filter (λ a, a_id a = i) l = [].
Proof.
  induction l as [|a l IH]; intros Hnotin; [done|].
  cbn in Hnotin. apply not_elem_of_cons in Hnotin as [Hne Hnotin].
  rewrite filter_cons_False by congruence. by apply IH.
Qed.

Lemma key_occurs_once i l :
  NoDup (a_id <$> l) → (length (filter (λ a, a_id a = i) l) ≤ 1)%nat.
Proof.
  induction l as [|a l IH]; intros Hnd; [cbn; lia|].
  cbn in Hnd. apply NoDup_cons in Hnd as [Hnotin Hnd].
  rewrite filter_cons. destruct (decide (a_id a = i)) as [<-|Hne].
  - rewrite key_absent by done. cbn. lia.
  - by apply IH.
Qed.

Lemma active_after_deactivate_length i l :
  (length (filter (λ a, a_is_active a = true) (deactivate_row i <$> l))
   ≤ length (filter (λ a, a_is_active a = true) l))%nat.
Proof.
  induction l as [|a l IH]; [done|].
  cbn [fmap list_fmap]. rewrite !filter_cons.
  unfold deactivate_row in *. destruct (has_id i a); cbn [a_is_active set_active].
  - rewrite decide_False by done. destruct (decide _); cbn; lia.
  - destruct (decide _); cbn; lia.
Qed.

Lemma active_after_delete_length i l :
  (length (filter (λ a, a_is_active a = true) (filter (λ a, a_id a ≠ i) l))
   ≤ length (filter (λ a, a_is_active a = true) l))%nat.
Proof.
  induction l as [|a l IH]; [done|].
  rewrite (filter_cons (λ a, a_id a ≠ i)), (filter_cons (λ a, a_is_active a = true) a l).
  destruct (decide (a_id a ≠ i)); [rewrite filter_cons|];
    destruct (decide (a_is_active a = true)); cbn; lia.
Qed.

Lemma find_app_inactive (x : Agent) l :
  a_is_active x = false →
  filter (λ a, a_is_active a = true) (l ++ [x])
  = filter (λ a, a_is_active a = true) l.
Proof.
  intros Hx. rewrite filter_app, filter_cons, decide_False by congruence.
  by rewrite filter_nil, app_nil_r.
Qed.
End AgentRows.

(** * Reasoning about handlers *)
Section Frames.
Context {X : Type} (f : Db → X).

Lemma keeps_ret {A} (a : A) : keeps f (ret a).
Proof. by intros w. Qed.

Lemma keeps_query {A} (g : Db → A) : keeps f (query g).
Proof. by intros w. Qed.

Lemma keeps_call env c : keeps f (call env c).
Proof. intros w. unfold call. by destruct (respond env _). Qed.

Lemma keeps_bind {A B} (m : H A) (k : A → H B) :
  keeps f m → (∀ a, keeps f (k a)) → keeps f (bind m k).
Proof.
  intros Hm Hk w. unfold bind. specialize (Hm w).
  destruct (m w) as [[a|e] w']; cbn in *; [|done].
  by rewrite Hk.
Qed.

Lemma keeps_try_catch {A} (m : H A) (k : string → H A) :
  keeps f m → (∀ e, keeps f (k e)) → keeps f (try_catch m k).
Proof.
  intros Hm Hk w. unfold try_catch. specialize (Hm w).
  destruct (m w) as [[a|e] w']; cbn in *; [done|].
  by rewrite Hk.
Qed.

Lemma keeps_reply env text : keeps f (reply env text).
Proof. apply keeps_bind; [apply keeps_call|intros; apply keeps_ret]. Qed.

Lemma keeps_exec (g : World → World) :
  (∀ w, f (db (g w)) = f (db w)) → keeps f (exec g).
Proof. intros Hg w. apply Hg. Qed.
End Frames.

Ltac keeps_step :=
  first
    [ apply keeps_reply | apply keeps_ret | apply keeps_query | apply keeps_call
    | apply keeps_exec; intros; reflexivity
    | apply keeps_bind; [|intros ?]
    | apply keeps_try_catch; [|intros ?]
    | match goal with
      | |- keeps _ (if ?b then _ else _) => destruct b
      | |- keeps _ (match ?x with _ => _ end) => destruct x
      end ].

Ltac keeps_auto := cbv zeta; repeat keeps_step.

Section HandlerFrames.
Variables (env : Env).

(** An agent reply writes nothing but the log. *)
Lemma agent_text_keeps_mappings ctx :
  keeps message_mappings (agent_text env ctx).
Proof. unfold agent_text. keeps_auto. Qed.

Lemma agent_text_keeps_sessions ctx :
  keeps agent_sessions (agent_text env ctx).
Proof. unfold agent_text. keeps_auto. Qed.

Lemma agent_voice_keeps_mappings ctx :
  keeps message_mappings (agent_voice env ctx).
Proof. unfold agent_voice. keeps_auto. Qed.

Lemma agent_voice_keeps_sessions ctx :
  keeps agent_sessions (agent_voice env ctx).
Proof. unfold agent_voice. keeps_auto. Qed.

(** No handler touches the [agents] or the [admins] table. *)
Lemma on_text_keeps_directory ctx : keeps directory (on_text env ctx).
Proof. unfold on_text, agent_text, user_text. keeps_auto. Qed.

Lemma on_voice_keeps_directory ctx : keeps directory (on_voice env ctx).
Proof. unfold on_voice, agent_voice, user_voice. keeps_auto. Qed.
End HandlerFrames.

(** * Every operation maintains the [agents] table *)
Section Invariant.
Implicit Types (d : Db) (w : World) (o : Op).

Lemma db_ok_same_directory d d' :
  directory d' = directory d → db_ok d → db_ok d'.
Proof.
  unfold directory, db_ok, agents_keyed, single_active, active_agents.
  intros [= -> -> _]. tauto.
Qed.

Lemma db_ok_empty : db_ok empty_db.
Proof.
  split; [split|]; cbn; [apply NoDup_nil_2|apply Forall_nil_2|].
  unfold single_active, active_agents. cbn. lia.
Qed.

Lemma addAgent_ok t n w : db_ok (db w) → db_ok (db (addAgent t n w).2).
Proof.
  intros [[Hnd Hle] Hact]. unfold addAgent.
  destruct (_ || _); [done|]. cbn.
  split; [split|]; cbn.
  - rewrite fmap_app. apply NoDup_app. split; [done|]. split; [|apply NoDup_singleton].
    intros i Hi Hin. apply list_elem_of_singleton in Hin as ->.
    apply list_elem_of_fmap in Hi as (a & Ha & Hin).
    rewrite Forall_forall in Hle. specialize (Hle a Hin). cbn in Ha. lia.
  - apply Forall_app. split.
    + eapply Forall_impl; [exact Hle|]. cbn; intros; lia.
    + repeat constructor. cbn. lia.
  - unfold single_active, active_agents in *. cbn.
    by rewrite find_app_inactive.
Qed.

Lemma removeAgent_ok i w : db_ok (db w) → db_ok (db (removeAgent i w).2).
Proof.
  intros [[Hnd Hle] Hact]. unfold removeAgent.
  destruct (find _ _) as [row|]; [|done]. cbn.
  split; [split|]; cbn.
  - eapply sublist_NoDup; [exact Hnd|]. apply fmap_sublist, sublist_filter.
  - rewrite Forall_forall in *. intros a Ha.
    apply list_elem_of_filter in Ha as [_ Ha]. auto.
  - unfold single_active, active_agents in *. cbn.
    etrans; [apply active_after_delete_length|done].
Qed.

Lemma setActiveAgent_ok i w :
  db_ok (db w) → db_ok (db (setActiveAgent i w).2).
Proof.
  intros [[Hnd Hle] Hact]. unfold setActiveAgent.
  destruct (find _ _) as [row|]; [|done]. cbn.
  split; [split|]; cbn;
    change (λ a, if has_id i a then set_active true a else a) with (activate_row i).
  - rewrite !fmap_keeps_ids; auto using activate_row_id.
  - apply Forall_fmap, Forall_fmap. eapply Forall_impl; [exact Hle|].
    intros a Ha. cbn. by rewrite activate_row_id.
  - unfold single_active, active_agents. cbn.
    change (λ a, if has_id i a then set_active true a else a) with (activate_row i).
    rewrite active_after_activate_length. by apply key_occurs_once.
Qed.

Lemma deactivateAgent_ok i w :
  db_ok (db w) → db_ok (db (deactivateAgent i w).2).
Proof.
  intros [[Hnd Hle] Hact]. unfold deactivateAgent.
  destruct (find _ _) as [row|]; [|done]. cbn.
  split; [split|]; cbn;
    change (λ a, if has_id i a then set_active false a else a) with (deactivate_row i).
  - rewrite fmap_keeps_ids; auto using deactivate_row_id.
  - apply Forall_fmap. eapply Forall_impl; [exact Hle|].
    intros a Ha. cbn. by rewrite deactivate_row_id.
  - unfold single_active, active_agents in *. cbn.
    change (λ a, if has_id i a then set_active false a else a) with (deactivate_row i).
    etrans; [apply active_after_deactivate_length|done].
Qed.

Lemma apply_op_ok w o : db_ok (db w) → db_ok (db (apply_op w o)).
Proof.
  destruct o; cbn [apply_op];
    auto using addAgent_ok, removeAgent_ok, setActiveAgent_ok, deactivateAgent_ok.
  - unfold addAdmin. by destruct (isAdmin _ _).
  - apply db_ok_same_directory, on_text_keeps_directory.
  - apply db_ok_same_directory, on_voice_keeps_directory.
Qed.

Lemma apply_ops_ok ops w : db_ok (db w) → db_ok (db (apply_ops ops w)).
Proof.
  revert w. induction ops as [|o ops IH]; intros w Hw; [done|].
  cbn. apply IH, apply_op_ok, Hw.
Qed.

Lemma reachable_ok ops : db_ok (db (apply_ops ops init_world)).
Proof. apply apply_ops_ok, db_ok_empty. Qed.
End Invariant.

(** * The agent pool *)
Section AgentPool.
Implicit Types (d : Db) (w : World) (l : list Agent).

Lemma find_has_id_Some i l r : find (has_id i) l = Some r → a_id r = i.
Proof. intros Hr. apply find_some in Hr as [_ Hr]. by apply has_id_true. Qed.

Lemma find_deleted i l : find (has_id i) (filter (λ a, a_id a ≠ i) l) = None.
Proof.
  induction l as [|a l IH]; [done|].
  rewrite filter_cons. destruct (decide (a_id a ≠ i)) as [Hne|]; [|done].
  cbn. by apply has_id_false in Hne as ->.
Qed.

Lemma setActiveAgent_agents i w :
  exists_agent (db w) i →
  agents (db (setActiveAgent i w).2)
  = activate_row i <$> (set_active false <$> agents (db w)).
Proof. intros [row Hrow]. unfold setActiveAgent. by rewrite Hrow. Qed.

Lemma setActiveAgent_exists i j w :
  exists_agent (db w) i → exists_agent (db w) j →
  exists_agent (db (setActiveAgent i w).2) j.
Proof.
  intros Hi [row Hrow]. unfold exists_agent.
  rewrite setActiveAgent_agents by done.
  rewrite !find_fmap_keeps_id, Hrow by auto using activate_row_id. by eexists.
Qed.

(** P1 on any world in which both agents exist. *)
Lemma activate_twice a b w :
  a ≠ b → exists_agent (db w) a → exists_agent (db w) b →
  let w' := (setActiveAgent b (setActiveAgent a w).2).2 in
  (a_id <$> getActiveAgent (db w')) = Some b
  ∧ (a_is_active <$> find (has_id a) (agents (db w'))) = Some false.
Proof.
  intros Hne Ha Hb w'.
  pose proof (setActiveAgent_exists a b w Ha Hb) as [rb Hrb].
  pose proof (setActiveAgent_exists a a w Ha Ha) as [ra Hra].
  unfold getActiveAgent. subst w'.
  rewrite setActiveAgent_agents by by eexists.
  rewrite find_active_after_activate, Hrb.
  rewrite !find_fmap_keeps_id, Hra by auto using activate_row_id.
  apply find_has_id_Some in Hrb, Hra. cbn. split; [by rewrite Hrb|].
  unfold activate_row, has_id. cbn. rewrite Hra.
  apply Z.eqb_neq in Hne. by rewrite Hne.
Qed.
End AgentPool.

(** C4. At most one agent is active in every state that a sequence of
    operations reaches from the empty database.  In such a state:
    activating [a] and then [b], two different existing agents, leaves [b]
    the active agent and [a] inactive; an agent that [addAgent] adds is
    appended inactive; activating an id that no agent has fails with
    "Agent not found" and leaves the world as it was. *)
Theorem C4_single_active_agent (ops : list Op) :
  let w := apply_ops ops init_world in
  single_active (db w)
  ∧ (∀ a b, a ≠ b → exists_agent (db w) a → exists_agent (db w) b →
       let w' := (setActiveAgent b (setActiveAgent a w).2).2 in
       (a_id <$> getActiveAgent (db w')) = Some b
       ∧ (a_is_active <$> find (has_id a) (agents (db w'))) = Some false
       ∧ single_active (db w'))
  ∧ (∀ t n, (addAgent t n w).1 = true →
       ∃ row, agents (db (addAgent t n w).2) = agents (db w) ++ [row]
              ∧ a_telegram_id row = t ∧ a_is_active row = false)
  ∧ (∀ c, ¬ exists_agent (db w) c →
       setActiveAgent c w = (mkResult false "Agent not found", w)).
Proof.
  intros w. pose proof (reachable_ok ops) as Hok. fold w in Hok.
  split; [apply Hok|]. split; [|split].
  - intros a b Hne Ha Hb w'.
    destruct (activate_twice a b w Hne Ha Hb) as [H1 H2].
    split; [done|]. split; [done|].
    by apply setActiveAgent_ok, setActiveAgent_ok.
  - intros t n. unfold addAgent. destruct (_ || _); [done|]. intros _.
    eexists. cbn. split; [reflexivity|done].
  - intros c Hc. unfold setActiveAgent.
    destruct (find _ _) eqn:Hfind; [|done].
    exfalso. apply Hc. by eexists.
Qed.

Lemma C4_single_active_agent_witness :
  let w := apply_ops [OpAddAgent 7 "Ann"; OpAddAgent 8 "Bo"] init_world in
  (a_id <$> getActiveAgent (db (setActiveAgent 2 (setActiveAgent 1 w).2).2))
  = Some 2
  ∧ setActiveAgent 5 w = (mkResult false "Agent not found", w).
Proof.
  intros w.
  destruct (C4_single_active_agent [OpAddAgent 7 "Ann"; OpAddAgent 8 "Bo"])
    as (_ & Htwice & _ & Hmissing).
  split.
  - apply (Htwice 1 2); [lia | vm_compute; eauto | vm_compute; eauto].
  - apply (Hmissing 5). vm_compute. by intros [? ?].
Defined.

(** C5. For an agent id that exists, [removeAgent] succeeds and deletes
    the row of the agent, the admin entry and the session of its telegram
    id, and nothing else; the database is written to disk once, after the
    three deletions.  For an id that no agent has it fails with
    "Agent not found" and leaves the world as it was. *)
Theorem C5_remove_agent_atomic (agentId : Z) (w : World) :
  match find (has_id agentId) (agents (db w)) with
  | Some row =>
      let telegramId := a_telegram_id row in
      let w' := (removeAgent agentId w).2 in
      success (removeAgent agentId w).1 = true
      ∧ find (has_id agentId) (agents (db w')) = None
      ∧ (telegramId ∉ admins (db w'))
      ∧ getAgentSession (db w') telegramId = None
      ∧ db w' = mkDb (filter (λ a, a_id a ≠ agentId) (agents (db w)))
                     (agents_seq (db w))
                     (admins (db w) ∖ {[telegramId]})
                     (conversation_logs (db w))
                     (delete telegramId (agent_sessions (db w)))
                     (message_mappings (db w))
      ∧ trace w' = trace w ++ [Persist (db w')]
  | None =>
      removeAgent agentId w = (mkResult false "Agent not found", w)
  end.
Proof.
  unfold removeAgent. destruct (find _ _) as [row|] eqn:Hrow; [|done].
  cbn. split; [done|]. split; [apply find_deleted|].
  split; [|split; [|done]].
  - intros [_ Hn]%elem_of_difference. apply Hn. by apply elem_of_singleton.
  - unfold getAgentSession. cbn. apply lookup_delete_eq.
Qed.

(** * The branches of the handlers *)
Section Branches.
Variable env : Env.
Implicit Types (w : World) (d : Db).

Lemma calls_made_emit c w : calls_made (emit c w) = S (calls_made w).
Proof.
  unfold calls_made, emit, transport_calls. cbn.
  rewrite omap_app, length_app. cbn. lia.
Qed.

Lemma calls_made_saveDb w : calls_made (saveDb w) = calls_made w.
Proof.
  unfold calls_made, saveDb, transport_calls. cbn.
  rewrite omap_app, length_app. cbn. lia.
Qed.

Lemma reply_world text w : (reply env text w).2 = emit (Reply text) w.
Proof.
  unfold reply, bind, call, ret. by destruct (respond env _).
Qed.

Lemma on_text_command ctx w :
  String.prefix "/" (t_text ctx) = true → on_text env ctx w = (Ok tt, w).
Proof. intros Hp. unfold on_text. by rewrite Hp. Qed.

Lemma on_text_admin ctx w :
  String.prefix "/" (t_text ctx) = false →
  isAdmin (db w) (from_id (t_from ctx)) = true →
  on_text env ctx w = reply env admin_text_notice w.
Proof.
  intros Hp Hadmin. unfold on_text. rewrite Hp.
  unfold bind at 1, query at 1. cbv zeta. by rewrite Hadmin.
Qed.

Lemma on_text_agent ctx w :
  String.prefix "/" (t_text ctx) = false →
  isAdmin (db w) (from_id (t_from ctx)) = false →
  isAgent (db w) (from_id (t_from ctx)) = true →
  on_text env ctx w = agent_text env ctx w.
Proof.
  intros Hp Hadmin Hagent. unfold on_text. rewrite Hp.
  unfold bind at 1, query at 1. cbv zeta. rewrite Hadmin.
  unfold bind at 1, query at 1. by rewrite Hagent.
Qed.

Lemma on_text_user ctx w :
  String.prefix "/" (t_text ctx) = false →
  isAdmin (db w) (from_id (t_from ctx)) = false →
  isAgent (db w) (from_id (t_from ctx)) = false →
  on_text env ctx w = user_text env ctx w.
Proof.
  intros Hp Hadmin Hagent. unfold on_text. rewrite Hp.
  unfold bind at 1, query at 1. cbv zeta. rewrite Hadmin.
  unfold bind at 1, query at 1. by rewrite Hagent.
Qed.

Lemma on_voice_agent ctx w :
  isAgent (db w) (from_id (v_from ctx)) = true →
  on_voice env ctx w = agent_voice env ctx w.
Proof.
  intros Hagent. unfold on_voice.
  unfold bind at 1, query at 1. cbv zeta. by rewrite Hagent.
Qed.

Lemma on_voice_admin ctx w :
  isAgent (db w) (from_id (v_from ctx)) = false →
  isAdmin (db w) (from_id (v_from ctx)) = true →
  on_voice env ctx w = reply env admin_voice_notice w.
Proof.
  intros Hagent Hadmin. unfold on_voice.
  unfold bind at 1, query at 1. cbv zeta. rewrite Hagent.
  unfold bind at 1, query at 1. by rewrite Hadmin.
Qed.

Lemma on_voice_user ctx w :
  isAgent (db w) (from_id (v_from ctx)) = false →
  isAdmin (db w) (from_id (v_from ctx)) = false →
  on_voice env ctx w = user_voice env ctx w.
Proof.
  intros Hagent Hadmin. unfold on_voice.
  unfold bind at 1, query at 1. cbv zeta. rewrite Hagent.
  unfold bind at 1, query at 1. by rewrite Hadmin.
Qed.

(** ** The agent branch *)

Lemma agent_text_no_target ctx w :
  truthy (targetUserId
    (resolve_target (db w) (t_reply_to_message ctx) (from_id (t_from ctx))))
  = false →
  agent_text env ctx w = reply env no_target_text_notice w.
Proof.
  intros Ht. unfold agent_text. cbv zeta.
  unfold bind at 1, query at 1. by rewrite Ht.
Qed.

Lemma agent_voice_no_target ctx w :
  truthy (targetUserId
    (resolve_target (db w) (v_reply_to_message ctx) (from_id (v_from ctx))))
  = false →
  agent_voice env ctx w = reply env no_target_voice_notice w.
Proof.
  intros Ht. unfold agent_voice. cbv zeta.
  unfold bind at 1, query at 1. by rewrite Ht.
Qed.

Lemma agent_text_offline ctx w :
  truthy (targetUserId
    (resolve_target (db w) (t_reply_to_message ctx) (from_id (t_from ctx))))
  = true →
  (a_is_active <$> getAgentByTelegramId (db w) (from_id (t_from ctx)))
  ≠ Some true →
  agent_text env ctx w = reply env offline_notice w.
Proof.
  intros Ht Hoff. unfold agent_text. cbv zeta.
  unfold bind at 1, query at 1. rewrite Ht. cbn [negb].
  unfold bind at 1, query at 1.
  destruct (getAgentByTelegramId _ _) as [a|]; [|done].
  cbn in Hoff. by destruct (a_is_active a).
Qed.

Lemma agent_voice_offline ctx w :
  truthy (targetUserId
    (resolve_target (db w) (v_reply_to_message ctx) (from_id (v_from ctx))))
  = true →
  (a_is_active <$> getAgentByTelegramId (db w) (from_id (v_from ctx)))
  ≠ Some true →
  agent_voice env ctx w = reply env offline_notice w.
Proof.
  intros Ht Hoff. unfold agent_voice. cbv zeta.
  unfold bind at 1, query at 1. rewrite Ht. cbn [negb].
  unfold bind at 1, query at 1.
  destruct (getAgentByTelegramId _ _) as [a|]; [|done].
  cbn in Hoff. by destruct (a_is_active a).
Qed.
End Branches.

(** * Sends inside a [try] *)
Section TryCatch.
Variable env : Env.
Implicit Types (w : World) (d : Db) (k : H unit) (h : string → H unit).

Lemma try_call_failed c (k : Z → H unit) h w e :
  respond env (calls_made w) = Failed e →
  try_catch (x <- call env c;; k x) h w = h e (emit c w).
Proof. intros Hr. unfold try_catch, bind, call. by rewrite Hr. Qed.

Lemma try_call_sent c (k : Z → H unit) h w message_id :
  respond env (calls_made w) = Sent message_id →
  try_catch (x <- call env c;; k x) h w = try_catch (k message_id) h (emit c w).
Proof. intros Hr. unfold try_catch, bind, call. by rewrite Hr. Qed.

Lemma try_exec (g : World → World) k h w :
  try_catch (exec g;; k) h w = try_catch k h (g w).
Proof. done. Qed.

(** The last statement of a [try] is the confirmation to the sender; if it
    throws, the [catch] answers the sender as well.  Either way only
    replies are added to the trace. *)
Lemma try_reply text (notice : string → string) w :
  let w' := (try_catch (reply env text) (λ e, reply env (notice e)) w).2 in
  db w' = db w
  ∧ ∃ rest, trace w' = trace w ++ rest ∧ Forall is_reply rest.
Proof.
  assert (try_catch (reply env text) (λ e, reply env (notice e)) w
          = match respond env (calls_made w) with
            | Sent _ => (Ok tt, emit (Reply text) w)
            | Failed e => reply env (notice e) (emit (Reply text) w)
            end) as ->.
  { unfold try_catch, reply at 1, bind, call, ret.
    by destruct (respond env (calls_made w)). }
  destruct (respond env (calls_made w)) as [?|e]; cbn.
  - split; [done|]. eexists. split; [done|]. by repeat constructor.
  - rewrite reply_world. cbn. split; [done|].
    exists [Transport (Reply text); Transport (Reply (notice e))].
    split; [by rewrite <- app_assoc|]. by repeat constructor.
Qed.
End TryCatch.

Section AgentSend.
Variable env : Env.
Implicit Types (w : World) (d : Db).

Lemma agent_text_active ctx w uid name a :
  resolve_target (db w) (t_reply_to_message ctx) (from_id (t_from ctx))
  = mkTarget (Some uid) name →
  uid ≠ 0 →
  getAgentByTelegramId (db w) (from_id (t_from ctx)) = Some a →
  a_is_active a = true →
  agent_text env ctx w
  = try_catch
      (call env (SendMessage uid (t_text ctx) false);;
       exec (logMessage (now env) uid name (a_id a) (a_name a)
               "agent_to_user" (t_text ctx));;
       reply env ("✅ Reply sent to " +:+ name +:+ " (ID: "
                  +:+ pretty uid +:+ ")"))
      (λ e, reply env ("❌ Failed to send: " +:+ e)) w.
Proof.
  intros Ht Hu Ha Hact. unfold agent_text. cbv zeta.
  unfold bind at 1, query at 1. rewrite Ht. cbn [targetUserId truthy].
  apply Z.eqb_neq in Hu. rewrite Hu. cbn [negb].
  unfold bind at 1, query at 1. by rewrite Ha, Hact.
Qed.

Lemma agent_voice_active ctx w uid name a :
  resolve_target (db w) (v_reply_to_message ctx) (from_id (v_from ctx))
  = mkTarget (Some uid) name →
  uid ≠ 0 →
  getAgentByTelegramId (db w) (from_id (v_from ctx)) = Some a →
  a_is_active a = true →
  agent_voice env ctx w
  = try_catch
      (call env (SendVoice uid (v_file_id ctx) None);;
       exec (logMessage (now env) uid name (a_id a) (a_name a)
               "agent_to_user" "[Voice Message]");;
       reply env ("✅ Voice reply sent to " +:+ name))
      (λ e, reply env ("❌ Failed to send voice reply: " +:+ e)) w.
Proof.
  intros Ht Hu Ha Hact. unfold agent_voice. cbv zeta.
  unfold bind at 1, query at 1. rewrite Ht. cbn [targetUserId truthy].
  apply Z.eqb_neq in Hu. rewrite Hu. cbn [negb].
  unfold bind at 1, query at 1. by rewrite Ha, Hact.
Qed.
End AgentSend.

Section UserSend.
Variable env : Env.
Implicit Types (w : World) (d : Db).

Lemma recorded_db a f message_id logged w :
  let u := mkUserRef (from_id f) (userDisplayName_of f) in
  db (recorded env a f message_id logged w)
  = mkDb (agents (db w)) (agents_seq (db w)) (admins (db w))
      (conversation_logs (db w)
       ++ [mkLogEntry (now env) (from_id f) (userDisplayName_of f)
             (a_id a) (a_name a) "user_to_agent" logged])
      (<[a_telegram_id a := u]> (delete (a_telegram_id a) (agent_sessions (db w))))
      (<[message_id := u]> (message_mappings (db w))).
Proof. done. Qed.

Lemma recorded_trace a f message_id logged w :
  ∃ d1 d2 d3,
    trace (recorded env a f message_id logged w)
    = trace w ++ [Persist d1; Persist d2; Persist d3]
    ∧ d3 = db (recorded env a f message_id logged w).
Proof.
  unfold recorded, logMessage, setAgentSession, addMessageMapping, saveDb, run.
  cbn. do 3 eexists. split; [|done]. by rewrite <- !app_assoc.
Qed.

Lemma user_text_no_agent ctx w :
  getActiveAgent (db w) = None →
  user_text env ctx w
  = reply env "Sorry, no support agents are available right now. Please try again later." w.
Proof.
  intros Hnone. unfold user_text. cbv zeta.
  unfold bind at 1, query at 1. by rewrite Hnone.
Qed.

Lemma user_text_active ctx w a :
  getActiveAgent (db w) = Some a →
  user_text env ctx w
  = try_catch
      (sentMsg <- call env
         (SendMessage (a_telegram_id a)
            (forwardText (t_from ctx) (t_text ctx)) true);;
       exec (addMessageMapping sentMsg (from_id (t_from ctx))
               (userDisplayName_of (t_from ctx)));;
       exec (setAgentSession (a_telegram_id a) (from_id (t_from ctx))
               (userDisplayName_of (t_from ctx)));;
       exec (logMessage (now env) (from_id (t_from ctx))
               (userDisplayName_of (t_from ctx)) (a_id a) (a_name a)
               "user_to_agent" (t_text ctx));;
       reply env "✅ Your message has been received. An agent will respond shortly.")
      (λ e, reply env (forward_error_notice e)) w.
Proof.
  intros Ha. unfold user_text. cbv zeta.
  unfold bind at 1, query at 1. by rewrite Ha.
Qed.

Lemma user_text_failed ctx w a e :
  getActiveAgent (db w) = Some a →
  respond env (calls_made w) = Failed e →
  (user_text env ctx w).2
  = emit (Reply (forward_error_notice e))
      (emit (SendMessage (a_telegram_id a)
               (forwardText (t_from ctx) (t_text ctx)) true) w).
Proof.
  intros Ha Hr. rewrite (user_text_active ctx w a) by done.
  rewrite (try_call_failed env _ _ _ _ e) by done. apply reply_world.
Qed.

Lemma user_text_sent ctx w a message_id :
  getActiveAgent (db w) = Some a →
  respond env (calls_made w) = Sent message_id →
  let w' := (user_text env ctx w).2 in
  let w3 := recorded env a (t_from ctx) message_id (t_text ctx)
              (emit (SendMessage (a_telegram_id a)
                       (forwardText (t_from ctx) (t_text ctx)) true) w) in
  db w' = db w3
  ∧ ∃ rest, trace w' = trace w3 ++ rest ∧ Forall is_reply rest.
Proof.
  intros Ha Hr. cbv zeta. rewrite (user_text_active ctx w a) by done.
  rewrite (try_call_sent env _ _ _ _ message_id) by done.
  rewrite !try_exec. apply try_reply.
Qed.

Lemma user_voice_no_agent ctx w :
  getActiveAgent (db w) = None →
  user_voice env ctx w
  = reply env "Sorry, no support agents are available right now." w.
Proof.
  intros Hnone. unfold user_voice. cbv zeta.
  unfold bind at 1, query at 1. by rewrite Hnone.
Qed.

(** The notice that precedes the transcription is sent outside the [try]:
    if it throws, the handler ends there. *)
Lemma user_voice_unannounced ctx w a e :
  getActiveAgent (db w) = Some a →
  respond env (calls_made w) = Failed e →
  user_voice env ctx w = (Throw e, emit (Reply processing_notice) w).
Proof.
  intros Ha Hr. unfold user_voice. cbv zeta.
  unfold bind at 1, query at 1. rewrite Ha.
  unfold bind at 1, reply, bind, call. by rewrite Hr.
Qed.

Lemma user_voice_announced ctx w a ok :
  getActiveAgent (db w) = Some a →
  respond env (calls_made w) = Sent ok →
  user_voice env ctx w
  = try_catch
      (sentVoice <- call env
         (SendVoice (a_telegram_id a) (v_file_id ctx)
            (Some (forwardHeader (v_from ctx)
                     (transcribeVoice env (v_file_id ctx)))));;
       exec (addMessageMapping sentVoice (from_id (v_from ctx))
               (userDisplayName_of (v_from ctx)));;
       exec (setAgentSession (a_telegram_id a) (from_id (v_from ctx))
               (userDisplayName_of (v_from ctx)));;
       exec (logMessage (now env) (from_id (v_from ctx))
               (userDisplayName_of (v_from ctx)) (a_id a) (a_name a)
               "user_to_agent"
               ("[Voice] " +:+ transcribeVoice env (v_file_id ctx)));;
       reply env "✅ Your voice message has been sent to an agent. They can listen to it and respond shortly.")
      (λ e, reply env voice_error_notice)
      (emit (Reply processing_notice) w).
Proof.
  intros Ha Hr. unfold user_voice. cbv zeta.
  unfold bind at 1, query at 1. rewrite Ha.
  unfold bind at 1, reply at 1, bind at 1, call at 1. by rewrite Hr.
Qed.

Lemma user_voice_failed ctx w a ok e :
  getActiveAgent (db w) = Some a →
  respond env (calls_made w) = Sent ok →
  respond env (S (calls_made w)) = Failed e →
  (user_voice env ctx w).2
  = emit (Reply voice_error_notice)
      (emit (SendVoice (a_telegram_id a) (v_file_id ctx)
               (Some (forwardHeader (v_from ctx)
                        (transcribeVoice env (v_file_id ctx)))))
         (emit (Reply processing_notice) w)).
Proof.
  intros Ha Hok Hr. rewrite (user_voice_announced ctx w a ok) by done.
  rewrite (try_call_failed env _ _ _ _ e) by by rewrite calls_made_emit.
  apply reply_world.
Qed.

Lemma user_voice_sent ctx w a ok message_id :
  getActiveAgent (db w) = Some a →
  respond env (calls_made w) = Sent ok →
  respond env (S (calls_made w)) = Sent message_id →
  let w' := (user_voice env ctx w).2 in
  let w3 := recorded env a (v_from ctx) message_id
              ("[Voice] " +:+ transcribeVoice env (v_file_id ctx))
              (emit (SendVoice (a_telegram_id a) (v_file_id ctx)
                       (Some (forwardHeader (v_from ctx)
                                (transcribeVoice env (v_file_id ctx)))))
                 (emit (Reply processing_notice) w)) in
  db w' = db w3
  ∧ ∃ rest, trace w' = trace w3 ++ rest ∧ Forall is_reply rest.
Proof.
  intros Ha Hok Hr. cbv zeta. rewrite (user_voice_announced ctx w a ok) by done.
  rewrite (try_call_sent env _ _ _ _ message_id) by by rewrite calls_made_emit.
  rewrite !try_exec. apply try_reply.
Qed.
End UserSend.

Section AgentDelivery.
Variable env : Env.
Implicit Types (w : World) (d : Db).

Lemma agent_text_failed ctx w uid name a e :
  resolve_target (db w) (t_reply_to_message ctx) (from_id (t_from ctx))
  = mkTarget (Some uid) name →
  uid ≠ 0 →
  getAgentByTelegramId (db w) (from_id (t_from ctx)) = Some a →
  a_is_active a = true →
  respond env (calls_made w) = Failed e →
  (agent_text env ctx w).2
  = emit (Reply ("❌ Failed to send: " +:+ e))
      (emit (SendMessage uid (t_text ctx) false) w).
Proof.
  intros Ht Hu Ha Hact Hr. rewrite (agent_text_active env ctx w uid name a) by done.
  rewrite (try_call_failed env _ _ _ _ e) by done. apply reply_world.
Qed.

Lemma agent_text_sent ctx w uid name a message_id :
  resolve_target (db w) (t_reply_to_message ctx) (from_id (t_from ctx))
  = mkTarget (Some uid) name →
  uid ≠ 0 →
  getAgentByTelegramId (db w) (from_id (t_from ctx)) = Some a →
  a_is_active a = true →
  respond env (calls_made w) = Sent message_id →
  let w' := (agent_text env ctx w).2 in
  let w1 := logMessage (now env) uid name (a_id a) (a_name a)
              "agent_to_user" (t_text ctx)
              (emit (SendMessage uid (t_text ctx) false) w) in
  db w' = db w1
  ∧ ∃ rest, trace w' = trace w1 ++ rest ∧ Forall is_reply rest.
Proof.
  intros Ht Hu Ha Hact Hr. cbv zeta.
  rewrite (agent_text_active env ctx w uid name a) by done.
  rewrite (try_call_sent env _ _ _ _ message_id) by done.
  rewrite try_exec. apply try_reply.
Qed.

Lemma agent_voice_failed ctx w uid name a e :
  resolve_target (db w) (v_reply_to_message ctx) (from_id (v_from ctx))
  = mkTarget (Some uid) name →
  uid ≠ 0 →
  getAgentByTelegramId (db w) (from_id (v_from ctx)) = Some a →
  a_is_active a = true →
  respond env (calls_made w) = Failed e →
  (agent_voice env ctx w).2
  = emit (Reply ("❌ Failed to send voice reply: " +:+ e))
      (emit (SendVoice uid (v_file_id ctx) None) w).
Proof.
  intros Ht Hu Ha Hact Hr. rewrite (agent_voice_active env ctx w uid name a) by done.
  rewrite (try_call_failed env _ _ _ _ e) by done. apply reply_world.
Qed.

Lemma agent_voice_sent ctx w uid name a message_id :
  resolve_target (db w) (v_reply_to_message ctx) (from_id (v_from ctx))
  = mkTarget (Some uid) name →
  uid ≠ 0 →
  getAgentByTelegramId (db w) (from_id (v_from ctx)) = Some a →
  a_is_active a = true →
  respond env (calls_made w) = Sent message_id →
  let w' := (agent_voice env ctx w).2 in
  let w1 := logMessage (now env) uid name (a_id a) (a_name a)
              "agent_to_user" "[Voice Message]"
              (emit (SendVoice uid (v_file_id ctx) None) w) in
  db w' = db w1
  ∧ ∃ rest, trace w' = trace w1 ++ rest ∧ Forall is_reply rest.
Proof.
  intros Ht Hu Ha Hact Hr. cbv zeta.
  rewrite (agent_voice_active env ctx w uid name a) by done.
  rewrite (try_call_sent env _ _ _ _ message_id) by done.
  rewrite try_exec. apply try_reply.
Qed.

(** ** Target resolution *)

Lemma resolve_target_mapping d message_id sender m :
  getMessageMapping d message_id = Some m →
  userId m ≠ 0 →
  resolve_target d (Some message_id) sender
  = mkTarget (Some (userId m)) (userName m).
Proof.
  intros Hm Hu. unfold resolve_target, target_of_mapping. rewrite Hm.
  cbn. apply Z.eqb_neq in Hu. by rewrite Hu.
Qed.

Lemma target_of_mapping_miss d reply_to :
  (∀ message_id, reply_to = Some message_id →
                 getMessageMapping d message_id = None) →
  target_of_mapping d reply_to = mkTarget None "User".
Proof.
  intros Hmiss. unfold target_of_mapping.
  destruct reply_to as [message_id|]; [|done]. by rewrite Hmiss.
Qed.

Lemma resolve_target_session d reply_to sender :
  (∀ message_id, reply_to = Some message_id →
                 getMessageMapping d message_id = None) →
  resolve_target d reply_to sender
  = match getAgentSession d sender with
    | Some session => mkTarget (Some (userId session)) (userName session)
    | None => mkTarget None "User"
    end.
Proof.
  intros Hmiss. unfold resolve_target.
  by rewrite target_of_mapping_miss.
Qed.

Lemma isAgent_getAgent d telegramId :
  isAgent d telegramId = true ↔ is_Some (getAgentByTelegramId d telegramId).
Proof.
  unfold isAgent, getAgentByTelegramId.
  induction (agents d) as [|a l IH]; cbn.
  - split; [done|]. by intros [? ?].
  - destruct (has_telegram_id telegramId a); cbn; [|done].
    split; [by eexists|done].
Qed.
End AgentDelivery.

(** * Stored user ids *)
Section StoredIds.
Implicit Types (d : Db) (w : World) (P : Db → Prop).

Lemma preserves_ret {A} P (a : A) : preserves P (ret a).
Proof. by intros w. Qed.

Lemma preserves_query {A} P (g : Db → A) : preserves P (query g).
Proof. by intros w. Qed.

Lemma preserves_call P env c : preserves P (call env c).
Proof. intros w. unfold call. by destruct (respond env _). Qed.

Lemma preserves_bind {A B} P (m : H A) (k : A → H B) :
  preserves P m → (∀ a, preserves P (k a)) → preserves P (bind m k).
Proof.
  intros Hm Hk w Hw. unfold bind. specialize (Hm w Hw).
  destruct (m w) as [[a|e] w']; cbn in *; [|done].
  by apply Hk.
Qed.

Lemma preserves_try_catch {A} P (m : H A) (k : string → H A) :
  preserves P m → (∀ e, preserves P (k e)) → preserves P (try_catch m k).
Proof.
  intros Hm Hk w Hw. unfold try_catch. specialize (Hm w Hw).
  destruct (m w) as [[a|e] w']; cbn in *; [done|].
  by apply Hk.
Qed.

Lemma preserves_reply P env text : preserves P (reply env text).
Proof.
  apply preserves_bind; [apply preserves_call|intros; apply preserves_ret].
Qed.

Lemma preserves_exec P (g : World → World) :
  (∀ w, P (db w) → P (db (g w))) → preserves P (exec g).
Proof. intros Hg w. apply Hg. Qed.

Lemma addMessageMapping_ids_ok m u n w :
  u ≠ 0 → stored_ids_ok (db w) → stored_ids_ok (db (addMessageMapping m u n w)).
Proof.
  intros Hu [Hm Hs]. split; [|done]. cbn. by apply map_Forall_insert_2.
Qed.

Lemma setAgentSession_ids_ok a u n w :
  u ≠ 0 → stored_ids_ok (db w) → stored_ids_ok (db (setAgentSession a u n w)).
Proof.
  intros Hu [Hm Hs]. split; [done|]. cbn.
  apply map_Forall_insert_2; [done|]. by apply map_Forall_delete.
Qed.

Lemma logMessage_ids_ok now u un a an dir msg w :
  stored_ids_ok (db w) → stored_ids_ok (db (logMessage now u un a an dir msg w)).
Proof. done. Qed.
End StoredIds.

Ltac preserves_step :=
  first
    [ apply preserves_reply | apply preserves_ret | apply preserves_query
    | apply preserves_call
    | apply preserves_exec; intros ?;
      first [ by apply addMessageMapping_ids_ok
            | by apply setAgentSession_ids_ok
            | apply logMessage_ids_ok ]
    | apply preserves_bind; [|intros ?]
    | apply preserves_try_catch; [|intros ?]
    | match goal with
      | |- preserves _ (if ?b then _ else _) => destruct b
      | |- preserves _ (match ?x with _ => _ end) => destruct x
      end ].

Section ReachableIds.
Implicit Types (d : Db) (w : World).

Lemma on_text_ids_ok env ctx :
  from_id (t_from ctx) ≠ 0 → preserves stored_ids_ok (on_text env ctx).
Proof.
  intros Hid. unfold on_text, agent_text, user_text. cbv zeta.
  repeat preserves_step.
Qed.

Lemma on_voice_ids_ok env ctx :
  from_id (v_from ctx) ≠ 0 → preserves stored_ids_ok (on_voice env ctx).
Proof.
  intros Hid. unfold on_voice, agent_voice, user_voice. cbv zeta.
  repeat preserves_step.
Qed.

Lemma apply_op_ids_ok w o :
  op_ids_ok o → stored_ids_ok (db w) → stored_ids_ok (db (apply_op w o)).
Proof.
  destruct o; cbn [apply_op op_ids_ok]; intros Ho Hw;
    auto using addMessageMapping_ids_ok, setAgentSession_ids_ok.
  - unfold addAdmin. by destruct (isAdmin _ _).
  - unfold addAgent. by destruct (_ || _).
  - unfold removeAgent. destruct (find _ _) as [row|]; [|done].
    destruct Hw as [Hm Hs]. split; [done|]. cbn. by apply map_Forall_delete.
  - unfold setActiveAgent. by destruct (find _ _).
  - unfold deactivateAgent. by destruct (find _ _).
  - by apply on_text_ids_ok.
  - by apply on_voice_ids_ok.
Qed.

Lemma apply_ops_ids_ok ops w :
  Forall op_ids_ok ops → stored_ids_ok (db w) →
  stored_ids_ok (db (apply_ops ops w)).
Proof.
  revert w. induction ops as [|o ops IH]; intros w Hops Hw; [done|].
  apply Forall_cons in Hops as [Ho Hops].
  cbn. apply IH; [done|]. by apply apply_op_ids_ok.
Qed.

Lemma reachable_ids_ok ops :
  Forall op_ids_ok ops → stored_ids_ok (db (apply_ops ops init_world)).
Proof.
  intros Hops. apply apply_ops_ids_ok; [done|].
  split; apply map_Forall_empty.
Qed.
End ReachableIds.

(** * Replies of an agent *)

(** C2. In every state that operations with Telegram user ids (ids other
    than 0) reach from the empty database: when an agent replies in a
    thread to a forwarded message that has a mapping, the target is the
    user of the mapping, whatever the session table holds; the text handler
    sends the text to that user and the voice handler the voice note.  The
    session of the agent decides the target when the reply has no thread
    reference or the referenced message has no mapping. *)
Theorem C2_mapping_beats_session (env : Env) (ops : list Op) (M : Z)
    (m : UserRef) :
  Forall op_ids_ok ops →
  let w := apply_ops ops init_world in
  getMessageMapping (db w) M = Some m →
  (∀ sender sessions,
     resolve_target
       (mkDb (agents (db w)) (agents_seq (db w)) (admins (db w))
             (conversation_logs (db w)) sessions (message_mappings (db w)))
       (Some M) sender
     = mkTarget (Some (userId m)) (userName m))
  ∧ (∀ ctx a,
       t_reply_to_message ctx = Some M →
       String.prefix "/" (t_text ctx) = false →
       isAdmin (db w) (from_id (t_from ctx)) = false →
       getAgentByTelegramId (db w) (from_id (t_from ctx)) = Some a →
       a_is_active a = true →
       ∃ rest, trace (on_text env ctx w).2
               = trace w ++ Transport (SendMessage (userId m) (t_text ctx) false)
                   :: rest)
  ∧ (∀ ctx a,
       v_reply_to_message ctx = Some M →
       getAgentByTelegramId (db w) (from_id (v_from ctx)) = Some a →
       a_is_active a = true →
       ∃ rest, trace (on_voice env ctx w).2
               = trace w ++ Transport (SendVoice (userId m) (v_file_id ctx) None)
                   :: rest)
  ∧ (∀ reply_to sender,
       (∀ message_id, reply_to = Some message_id →
                      getMessageMapping (db w) message_id = None) →
       resolve_target (db w) reply_to sender
       = match getAgentSession (db w) sender with
         | Some session => mkTarget (Some (userId session)) (userName session)
         | None => mkTarget None "User"
         end).
Proof.
  intros Hops w Hm.
  assert (userId m ≠ 0) as Hu.
  { destruct (reachable_ids_ok ops Hops) as [Hmaps _].
    exact (map_Forall_lookup_1 _ _ _ _ Hmaps Hm). }
  split; [|split; [|split]].
  - intros sender sessions. by apply resolve_target_mapping.
  - intros ctx a Hreply Hp Hadmin Ha Hact.
    assert (isAgent (db w) (from_id (t_from ctx)) = true) as Hagent
      by (apply isAgent_getAgent; by eexists).
    rewrite on_text_agent by done.
    assert (resolve_target (db w) (t_reply_to_message ctx) (from_id (t_from ctx))
            = mkTarget (Some (userId m)) (userName m)) as Ht
      by (rewrite Hreply; by apply resolve_target_mapping).
    destruct (respond env (calls_made w)) as [message_id|e] eqn:Hr.
    + destruct (agent_text_sent env ctx w _ _ a message_id Ht Hu Ha Hact Hr)
        as (_ & rest & -> & _).
      eexists. cbn. by rewrite <- !app_assoc.
    + rewrite (agent_text_failed env ctx w _ _ a e Ht Hu Ha Hact Hr).
      eexists. cbn. by rewrite <- app_assoc.
  - intros ctx a Hreply Ha Hact.
    assert (isAgent (db w) (from_id (v_from ctx)) = true) as Hagent
      by (apply isAgent_getAgent; by eexists).
    rewrite on_voice_agent by done.
    assert (resolve_target (db w) (v_reply_to_message ctx) (from_id (v_from ctx))
            = mkTarget (Some (userId m)) (userName m)) as Ht
      by (rewrite Hreply; by apply resolve_target_mapping).
    destruct (respond env (calls_made w)) as [message_id|e] eqn:Hr.
    + destruct (agent_voice_sent env ctx w _ _ a message_id Ht Hu Ha Hact Hr)
        as (_ & rest & -> & _).
      eexists. cbn. by rewrite <- !app_assoc.
    + rewrite (agent_voice_failed env ctx w _ _ a e Ht Hu Ha Hact Hr).
      eexists. cbn. by rewrite <- app_assoc.
  - intros reply_to sender. apply resolve_target_session.
Qed.

Lemma C2_mapping_beats_session_witness :
  getAgentSession (db demo_two_users) 7 = Some (mkUserRef 42 "Cy")
  ∧ resolve_target (db demo_two_users) (Some 100) 7
    = mkTarget (Some 41) "Bob (@bob)".
Proof.
  split; [by vm_compute|].
  destruct (C2_mapping_beats_session demo_env demo_ops 100
              (mkUserRef 41 "Bob (@bob)")) as (Htarget & _).
  - repeat constructor; cbn; lia.
  - by vm_compute.
  - exact (Htarget 7 (agent_sessions (db demo_two_users))).
Defined.

(** C6. A reply of an agent (a sender the text handler does not treat as
    an admin) whose target resolves while the agent is inactive is answered
    with the offline notice and nothing else: the database is unchanged,
    so no log entry is written, and the only call is the reply to the
    agent, so nothing is sent to the user.  The same holds for a voice
    reply. *)
Theorem C6_offline_agent_reply (env : Env) (w : World) :
  (∀ ctx a,
     String.prefix "/" (t_text ctx) = false →
     isAdmin (db w) (from_id (t_from ctx)) = false →
     getAgentByTelegramId (db w) (from_id (t_from ctx)) = Some a →
     a_is_active a = false →
     truthy (targetUserId
       (resolve_target (db w) (t_reply_to_message ctx) (from_id (t_from ctx))))
     = true →
     let w' := (on_text env ctx w).2 in
     db w' = db w ∧ trace w' = trace w ++ [Transport (Reply offline_notice)])
  ∧ (∀ ctx a,
       getAgentByTelegramId (db w) (from_id (v_from ctx)) = Some a →
       a_is_active a = false →
       truthy (targetUserId
         (resolve_target (db w) (v_reply_to_message ctx) (from_id (v_from ctx))))
       = true →
       let w' := (on_voice env ctx w).2 in
       db w' = db w ∧ trace w' = trace w ++ [Transport (Reply offline_notice)]).
Proof.
  split.
  - intros ctx a Hp Hadmin Ha Hoff Ht. cbv zeta.
    rewrite on_text_agent by (try apply isAgent_getAgent; eauto).
    rewrite agent_text_offline, reply_world; [done|done|].
    rewrite Ha. cbn. by rewrite Hoff.
  - intros ctx a Ha Hoff Ht. cbv zeta.
    rewrite on_voice_agent by (apply isAgent_getAgent; eauto).
    rewrite agent_voice_offline, reply_world; [done|done|].
    rewrite Ha. cbn. by rewrite Hoff.
Qed.

(** C7. A reply of an agent that has no thread reference to a mapped
    message, while the agent has no session, is answered with the
    "No user to reply to" notice and nothing else: the database is
    unchanged and the only call is the reply to the agent. *)
Theorem C7_no_reply_target (env : Env) (w : World) :
  (∀ ctx,
     String.prefix "/" (t_text ctx) = false →
     isAdmin (db w) (from_id (t_from ctx)) = false →
     isAgent (db w) (from_id (t_from ctx)) = true →
     (∀ message_id, t_reply_to_message ctx = Some message_id →
                    getMessageMapping (db w) message_id = None) →
     getAgentSession (db w) (from_id (t_from ctx)) = None →
     let w' := (on_text env ctx w).2 in
     db w' = db w
     ∧ trace w' = trace w ++ [Transport (Reply no_target_text_notice)])
  ∧ (∀ ctx,
       isAgent (db w) (from_id (v_from ctx)) = true →
       (∀ message_id, v_reply_to_message ctx = Some message_id →
                      getMessageMapping (db w) message_id = None) →
       getAgentSession (db w) (from_id (v_from ctx)) = None →
       let w' := (on_voice env ctx w).2 in
       db w' = db w
       ∧ trace w' = trace w ++ [Transport (Reply no_target_voice_notice)]).
Proof.
  split.
  - intros ctx Hp Hadmin Hagent Hmiss Hsession. cbv zeta.
    rewrite on_text_agent by done.
    rewrite agent_text_no_target, reply_world; [done|].
    rewrite resolve_target_session by done. by rewrite Hsession.
  - intros ctx Hagent Hmiss Hsession. cbv zeta.
    rewrite on_voice_agent by done.
    rewrite agent_voice_no_target, reply_world; [done|].
    rewrite resolve_target_session by done. by rewrite Hsession.
Qed.

(** C10. A delivered reply of an agent appends one log entry, with
    direction "agent_to_user", and changes nothing else in the database:
    the mappings and the sessions are as before, so the target that a
    reply without thread reference falls back to is the same afterwards.
    Whatever its outcome, no message of an agent or of an admin changes a
    mapping or a session: the handlers write them for end users only. *)
Theorem C10_agent_reply_only_logs (env : Env) (w : World) :
  (∀ ctx uid name a message_id,
     String.prefix "/" (t_text ctx) = false →
     isAdmin (db w) (from_id (t_from ctx)) = false →
     resolve_target (db w) (t_reply_to_message ctx) (from_id (t_from ctx))
     = mkTarget (Some uid) name →
     uid ≠ 0 →
     getAgentByTelegramId (db w) (from_id (t_from ctx)) = Some a →
     a_is_active a = true →
     respond env (calls_made w) = Sent message_id →
     let w' := (on_text env ctx w).2 in
     db w' = insert_log (mkLogEntry (now env) uid name (a_id a) (a_name a)
                           "agent_to_user" (t_text ctx)) (db w)
     ∧ message_mappings (db w') = message_mappings (db w)
     ∧ agent_sessions (db w') = agent_sessions (db w)
     ∧ resolve_target (db w') None (from_id (t_from ctx))
       = resolve_target (db w) None (from_id (t_from ctx)))
  ∧ (∀ ctx uid name a message_id,
       resolve_target (db w) (v_reply_to_message ctx) (from_id (v_from ctx))
       = mkTarget (Some uid) name →
       uid ≠ 0 →
       getAgentByTelegramId (db w) (from_id (v_from ctx)) = Some a →
       a_is_active a = true →
       respond env (calls_made w) = Sent message_id →
       let w' := (on_voice env ctx w).2 in
       db w' = insert_log (mkLogEntry (now env) uid name (a_id a) (a_name a)
                             "agent_to_user" "[Voice Message]") (db w)
       ∧ message_mappings (db w') = message_mappings (db w)
       ∧ agent_sessions (db w') = agent_sessions (db w)
       ∧ resolve_target (db w') None (from_id (v_from ctx))
         = resolve_target (db w) None (from_id (v_from ctx)))
  ∧ (∀ ctx,
       isAdmin (db w) (from_id (t_from ctx)) = true
       ∨ isAgent (db w) (from_id (t_from ctx)) = true →
       let w' := (on_text env ctx w).2 in
       message_mappings (db w') = message_mappings (db w)
       ∧ agent_sessions (db w') = agent_sessions (db w))
  ∧ (∀ ctx,
       isAdmin (db w) (from_id (v_from ctx)) = true
       ∨ isAgent (db w) (from_id (v_from ctx)) = true →
       let w' := (on_voice env ctx w).2 in
       message_mappings (db w') = message_mappings (db w)
       ∧ agent_sessions (db w') = agent_sessions (db w)).
Proof.
  split; [|split; [|split]].
  - intros ctx uid name a message_id Hp Hadmin Ht Hu Ha Hact Hr. cbv zeta.
    rewrite on_text_agent by (try apply isAgent_getAgent; eauto).
    destruct (agent_text_sent env ctx w uid name a message_id Ht Hu Ha Hact Hr)
      as (-> & _).
    done.
  - intros ctx uid name a message_id Ht Hu Ha Hact Hr. cbv zeta.
    rewrite on_voice_agent by (apply isAgent_getAgent; eauto).
    destruct (agent_voice_sent env ctx w uid name a message_id Ht Hu Ha Hact Hr)
      as (-> & _).
    done.
  - intros ctx Hrole. cbv zeta.
    destruct (String.prefix "/" (t_text ctx)) eqn:Hp;
      [by rewrite on_text_command|].
    destruct (isAdmin (db w) (from_id (t_from ctx))) eqn:Hadmin;
      [by rewrite on_text_admin, reply_world|].
    destruct Hrole as [|Hagent]; [done|].
    rewrite on_text_agent by done.
    split; [apply agent_text_keeps_mappings|apply agent_text_keeps_sessions].
  - intros ctx Hrole. cbv zeta.
    destruct (isAgent (db w) (from_id (v_from ctx))) eqn:Hagent.
    + rewrite on_voice_agent by done.
      split; [apply agent_voice_keeps_mappings|apply agent_voice_keeps_sessions].
    + destruct Hrole as [Hadmin|]; [|done].
      by rewrite on_voice_admin, reply_world.
Qed.

Lemma C6_offline_agent_reply_witness :
  let w' := (on_text demo_env (mkTextCtx ann "on it" None) demo_offline).2 in
  db w' = db demo_offline
  ∧ trace w' = trace demo_offline ++ [Transport (Reply offline_notice)].
Proof.
  destruct (C6_offline_agent_reply demo_env demo_offline) as [Htext _].
  apply (Htext (mkTextCtx ann "on it" None) (mkAgent 1 7 "Ann" false));
    by vm_compute.
Defined.

Lemma C7_no_reply_target_witness :
  let w' := (on_text demo_env (mkTextCtx ann "anyone?" None) demo_pool).2 in
  db w' = db demo_pool
  ∧ trace w' = trace demo_pool ++ [Transport (Reply no_target_text_notice)].
Proof.
  destruct (C7_no_reply_target demo_env demo_pool) as [Htext _].
  apply (Htext (mkTextCtx ann "anyone?" None)); by vm_compute.
Defined.

Lemma C10_agent_reply_only_logs_witness :
  let w' := (on_text demo_env (mkTextCtx ann "hi Bob" (Some 100))
               demo_two_users).2 in
  message_mappings (db w') = message_mappings (db demo_two_users)
  ∧ agent_sessions (db w') = agent_sessions (db demo_two_users).
Proof.
  destruct (C10_agent_reply_only_logs demo_env demo_two_users) as [Htext _].
  destruct (Htext (mkTextCtx ann "hi Bob" (Some 100)) 41 "Bob (@bob)"
              (mkAgent 1 7 "Ann" true) 104) as (_ & Hm & Hs & _);
    [by vm_compute..|].
  exact (conj Hm Hs).
Defined.

(** * Messages of an end user *)

(** C3. When an end user writes and an agent is active, the forward to
    the agent is the first thing the handler does.  If Telegram refuses
    it, the database is unchanged (no mapping, no session, no log entry,
    nothing written to disk) and the user is sent the error notice.  If
    Telegram accepts it, the mapping, the session and the log entry are
    written, and every write to disk comes after the send in the trace.
    The voice handler does the same after its processing notice; if that
    notice cannot be sent the handler stops before the forward, with the
    database unchanged. *)
Theorem C3_state_written_after_send (env : Env) (w : World) :
  (∀ ctx a,
     String.prefix "/" (t_text ctx) = false →
     isAdmin (db w) (from_id (t_from ctx)) = false →
     isAgent (db w) (from_id (t_from ctx)) = false →
     getActiveAgent (db w) = Some a →
     let send := SendMessage (a_telegram_id a)
                   (forwardText (t_from ctx) (t_text ctx)) true in
     let w' := (on_text env ctx w).2 in
     match respond env (calls_made w) with
     | Failed e =>
         db w' = db w
         ∧ trace w' = trace w ++ [Transport send;
                                  Transport (Reply (forward_error_notice e))]
     | Sent message_id =>
         db w' = db (recorded env a (t_from ctx) message_id (t_text ctx) w)
         ∧ ∃ d1 d2 rest,
             trace w' = trace w ++ Transport send :: Persist d1 :: Persist d2
                          :: Persist (db w') :: rest
             ∧ Forall is_reply rest
     end)
  ∧ (∀ ctx a,
       isAgent (db w) (from_id (v_from ctx)) = false →
       isAdmin (db w) (from_id (v_from ctx)) = false →
       getActiveAgent (db w) = Some a →
       let transcription := transcribeVoice env (v_file_id ctx) in
       let send := SendVoice (a_telegram_id a) (v_file_id ctx)
                     (Some (forwardHeader (v_from ctx) transcription)) in
       let w' := (on_voice env ctx w).2 in
       match respond env (calls_made w) with
       | Failed _ =>
           db w' = db w
           ∧ trace w' = trace w ++ [Transport (Reply processing_notice)]
       | Sent _ =>
           match respond env (S (calls_made w)) with
           | Failed _ =>
               db w' = db w
               ∧ trace w' = trace w ++ [Transport (Reply processing_notice);
                                        Transport send;
                                        Transport (Reply voice_error_notice)]
           | Sent message_id =>
               db w' = db (recorded env a (v_from ctx) message_id
                             ("[Voice] " +:+ transcription) w)
               ∧ ∃ d1 d2 rest,
                   trace w' = trace w ++ Transport (Reply processing_notice)
                                :: Transport send :: Persist d1 :: Persist d2
                                :: Persist (db w') :: rest
                   ∧ Forall is_reply rest
           end
       end).
Proof.
  split.
  - intros ctx a Hp Hadmin Hagent Ha. cbv zeta.
    rewrite on_text_user by done.
    destruct (respond env (calls_made w)) as [message_id|e] eqn:Hr.
    + destruct (user_text_sent env ctx w a message_id Ha Hr) as (Hdb & rest & Ht & Hrest).
      split; [by rewrite Hdb|].
      destruct (recorded_trace env a (t_from ctx) message_id (t_text ctx)
                  (emit (SendMessage (a_telegram_id a)
                           (forwardText (t_from ctx) (t_text ctx)) true) w))
        as (d1 & d2 & d3 & Htr & Hd3).
      exists d1, d2, rest. split; [|done].
      rewrite Ht, Htr, Hdb, <- Hd3. cbn. by rewrite <- !app_assoc.
    + rewrite (user_text_failed env ctx w a e Ha Hr). cbn.
      split; [done|]. by rewrite <- app_assoc.
  - intros ctx a Hagent Hadmin Ha. cbv zeta.
    rewrite on_voice_user by done.
    destruct (respond env (calls_made w)) as [ok|e] eqn:Hok.
    + destruct (respond env (S (calls_made w))) as [message_id|e] eqn:Hr.
      * destruct (user_voice_sent env ctx w a ok message_id Ha Hok Hr)
          as (Hdb & rest & Ht & Hrest).
        split; [by rewrite Hdb|].
        match type of Ht with
        | _ = trace (recorded _ _ _ _ ?logged ?w0) ++ _ =>
            destruct (recorded_trace env a (v_from ctx) message_id logged w0)
              as (d1 & d2 & d3 & Htr & Hd3)
        end.
        exists d1, d2, rest. split; [|done].
        rewrite Ht, Htr, Hdb, <- Hd3. cbn. by rewrite <- !app_assoc.
      * rewrite (user_voice_failed env ctx w a ok e Ha Hok Hr). cbn.
        split; [done|]. by rewrite <- !app_assoc.
    + by rewrite (user_voice_unannounced env ctx w a e Ha Hok).
Qed.

Lemma C3_state_written_after_send_witness :
  let w' := (on_text demo_env_blocked (mkTextCtx bob "hello" None) demo_pool).2 in
  db w' = db demo_pool
  ∧ trace w'
    = trace demo_pool
      ++ [Transport (SendMessage 7 (forwardText bob "hello") true);
          Transport (Reply (forward_error_notice
                              "Forbidden: bot was blocked by the user"))].
Proof.
  destruct (C3_state_written_after_send demo_env_blocked demo_pool) as [Htext _].
  apply (Htext (mkTextCtx bob "hello" None) (mkAgent 1 7 "Ann" true));
    by vm_compute.
Defined.

(** C8, amended.  When the transcription of a voice message of an end user
    fails and Telegram accepts the forward, the voice file is sent to the
    active agent with the placeholder in its caption, the mapping of the
    sent message and the session of the agent point to the user, and one
    log entry is appended whose text is "[Voice] " followed by the
    placeholder. *)
Theorem C8_voice_fail_open (env : Env) (w : World) (ctx : VoiceCtx)
    (a : Agent) (ok message_id : Z) :
  isAgent (db w) (from_id (v_from ctx)) = false →
  isAdmin (db w) (from_id (v_from ctx)) = false →
  getActiveAgent (db w) = Some a →
  String.eqb (OPENAI_API_KEY env) "YOUR_OPENAI_API_KEY" = false →
  whisper env (v_file_id ctx) = TranscriptionError →
  respond env (calls_made w) = Sent ok →
  respond env (S (calls_made w)) = Sent message_id →
  let w' := (on_voice env ctx w).2 in
  let user := mkUserRef (from_id (v_from ctx)) (userDisplayName_of (v_from ctx)) in
  (∃ rest,
     trace w' = trace w ++ Transport (Reply processing_notice)
                  :: Transport (SendVoice (a_telegram_id a) (v_file_id ctx)
                       (Some (forwardHeader (v_from ctx)
                                transcription_error_placeholder)))
                  :: rest)
  ∧ getMessageMapping (db w') message_id = Some user
  ∧ getAgentSession (db w') (a_telegram_id a) = Some user
  ∧ conversation_logs (db w')
    = conversation_logs (db w)
      ++ [mkLogEntry (now env) (from_id (v_from ctx))
            (userDisplayName_of (v_from ctx)) (a_id a) (a_name a)
            "user_to_agent" ("[Voice] " +:+ transcription_error_placeholder)].
Proof.
  intros Hagent Hadmin Ha Hkey Hwhisper Hok Hr. cbv zeta.
  assert (transcribeVoice env (v_file_id ctx) = transcription_error_placeholder)
    as Htr by (unfold transcribeVoice; by rewrite Hkey, Hwhisper).
  rewrite on_voice_user by done.
  destruct (user_voice_sent env ctx w a ok message_id Ha Hok Hr)
    as (Hdb & rest & Ht & _).
  rewrite Htr in Hdb, Ht. rewrite Hdb. split; [|split; [|split]].
  - rewrite Ht.
    match type of Ht with
    | _ = trace (recorded _ _ _ _ ?logged ?w0) ++ _ =>
        destruct (recorded_trace env a (v_from ctx) message_id logged w0)
          as (d1 & d2 & d3 & -> & _)
    end.
    eexists. cbn. by rewrite <- !app_assoc.
  - unfold getMessageMapping. cbn. apply lookup_insert_eq.
  - unfold getAgentSession. cbn. apply lookup_insert_eq.
  - done.
Qed.

Lemma C8_voice_fail_open_witness :
  let w' := (on_voice demo_env (mkVoiceCtx bob "voice-1" None) demo_pool).2 in
  getMessageMapping (db w') 101 = Some (mkUserRef 41 "Bob (@bob)")
  ∧ (message <$> last (conversation_logs (db w')))
    = Some "[Voice] [Error transcribing voice message]".
Proof.
  destruct (C8_voice_fail_open demo_env demo_pool (mkVoiceCtx bob "voice-1" None)
              (mkAgent 1 7 "Ann" true) 100 101) as (_ & Hm & _ & Hlog);
    [by vm_compute..|].
  split; [exact Hm|]. rewrite Hlog. by rewrite last_snoc.
Defined.

(** The logged text of the entry is not the bare placeholder. *)
Lemma C8_logged_text_is_not_the_placeholder :
  let w' := (on_voice demo_env (mkVoiceCtx bob "voice-1" None) demo_pool).2 in
  transcribeVoice demo_env "voice-1" = transcription_error_placeholder
  ∧ ¬ ((message <$> last (conversation_logs (db w')))
       = Some transcription_error_placeholder).
Proof. split; [done|]. by vm_compute. Qed.

(** * Admins who are agents *)

(** The text handler asks [isAdmin] first: a text of an admin is answered
    with the notice, or ignored when it starts with "/", whether or not
    the sender is an agent too. *)
Lemma on_text_admin_precedence (env : Env) (ctx : TextCtx) (w : World) :
  isAdmin (db w) (from_id (t_from ctx)) = true →
  let w' := (on_text env ctx w).2 in
  db w' = db w
  ∧ (trace w' = trace w
     ∨ trace w' = trace w ++ [Transport (Reply admin_text_notice)]).
Proof.
  intros Hadmin. cbv zeta.
  destruct (String.prefix "/" (t_text ctx)) eqn:Hp.
  - rewrite on_text_command by done. auto.
  - rewrite on_text_admin, reply_world by done. auto.
Qed.

(** C1, on the failing input.  Ann is an admin and the active agent, and
    her session names Cy.  The voice handler asks [isAgent] first: her
    voice note is sent to Cy and logged. *)
Theorem C1_voice_of_admin_agent_is_routed :
  let w := demo_admin_agent in
  let w' := (on_voice demo_env (mkVoiceCtx ann "voice-9" None) w).2 in
  isAdmin (db w) 7 = true
  ∧ isAgent (db w) 7 = true
  ∧ trace w' = trace w ++ [Transport (SendVoice 42 "voice-9" None);
                           Persist (db w');
                           Transport (Reply "✅ Voice reply sent to Cy")]
  ∧ conversation_logs (db w')
    = conversation_logs (db w)
      ++ [mkLogEntry "2024-05-01T10:00:00.000Z" 42 "Cy" 1 "Ann"
            "agent_to_user" "[Voice Message]"].
Proof. by vm_compute. Qed.

(** * The conversation log *)
Section Logs.
Implicit Types (d : Db) (rows : list LogEntry).

#[local] Instance newer_first_transitive : Transitive newer_first.
Proof.
  intros e1 e2 e3 H12 H23. unfold newer_first in *. by etrans.
Qed.

#[local] Instance newer_first_total : Total newer_first.
Proof. intros e1 e2. unfold newer_first. apply (total String.le). Qed.

Lemma sql_limit_length {A} (n : Z) (l : list A) :
  0 ≤ n → Z.of_nat (length (sql_limit n l)) ≤ n.
Proof.
  intros Hn. unfold sql_limit.
  destruct (Z.ltb_spec n 0); [lia|]. rewrite length_take. lia.
Qed.

Lemma sql_limit_prefix {A} (n : Z) (l : list A) : sql_limit n l `prefix_of` l.
Proof.
  unfold sql_limit. destruct (n <? 0); [done|]. apply prefix_take.
Qed.

Lemma sql_limit_sorted n rows :
  StronglySorted newer_first rows →
  StronglySorted newer_first (sql_limit n rows).
Proof.
  intros Hs. destruct (sql_limit_prefix n rows) as [k Hk].
  rewrite Hk in Hs. by apply StronglySorted_app_1_l in Hs.
Qed.

Lemma page_sorted n rows :
  StronglySorted newer_first (sql_limit n (order_by_timestamp_desc rows)).
Proof.
  apply sql_limit_sorted. unfold order_by_timestamp_desc.
  apply StronglySorted_merge_sort; apply _.
Qed.

Lemma page_subset n rows e :
  e ∈ sql_limit n (order_by_timestamp_desc rows) → e ∈ rows.
Proof.
  intros He. destruct (sql_limit_prefix n (order_by_timestamp_desc rows)) as [k Hk].
  assert (e ∈ order_by_timestamp_desc rows) as Hin
    by (rewrite Hk; apply elem_of_app; by left).
  unfold order_by_timestamp_desc in Hin. by rewrite merge_sort_Permutation in Hin.
Qed.

(** P6 for a user id that JavaScript takes as true. *)
Lemma getLogs_filtered d (U N : Z) :
  U ≠ 0 → 0 ≤ N →
  let page := getLogs d (Some U) N in
  Z.of_nat (length page) ≤ N
  ∧ Forall (λ e, user_id e = U ∧ e ∈ conversation_logs d) page
  ∧ StronglySorted newer_first page.
Proof.
  intros HU HN. cbv zeta. unfold getLogs. cbn.
  apply Z.eqb_neq in HU. rewrite HU. cbn.
  split; [by apply sql_limit_length|]. split; [|apply page_sorted].
  apply Forall_forall. intros e He. apply page_subset in He.
  apply list_elem_of_filter in He as [Hu He]. split; [congruence|done].
Qed.

Lemma getLogs_unfiltered d (N : Z) :
  0 ≤ N →
  let page := getLogs d None N in
  Z.of_nat (length page) ≤ N
  ∧ Forall (λ e, e ∈ conversation_logs d) page
  ∧ StronglySorted newer_first page.
Proof.
  intros HN. cbv zeta. unfold getLogs. cbn.
  split; [by apply sql_limit_length|]. split; [|apply page_sorted].
  apply Forall_forall. intros e He. by apply page_subset in He.
Qed.

(** No matching row: the page is empty. *)
Lemma getLogs_no_match d (U N : Z) :
  U ≠ 0 →
  Forall (λ e, user_id e ≠ U) (conversation_logs d) →
  getLogs d (Some U) N = [].
Proof.
  intros HU Hnone.
  assert (∀ e, e ∉ getLogs d (Some U) N) as Hempty.
  { intros e He. unfold getLogs in He. cbn in He.
    apply Z.eqb_neq in HU. rewrite HU in He. cbn in He.
    apply page_subset, list_elem_of_filter in He as [Hu He].
    rewrite Forall_forall in Hnone. apply (Hnone e He). congruence. }
  destruct (getLogs d (Some U) N) as [|e l]; [done|].
  exfalso. apply (Hempty e). by left.
Qed.

(** The user id 0 is false in JavaScript: [if (userId)] takes the branch
    without [WHERE]. *)
Lemma getLogs_zero d (N : Z) : getLogs d (Some 0) N = getLogs d None N.
Proof. done. Qed.
End Logs.

(** C9, on the failing input.  [/logs 0] calls [getLogs(0, 20)]: the log
    holds no entry of user 0, and the page holds the entries of Cy and of
    Bob. *)
Theorem C9_logs_of_user_zero_unfiltered :
  conversation_logs demo_logs = [entry_bob; entry_cy]
  ∧ getLogs demo_logs (Some 0) 20 = [entry_cy; entry_bob]
  ∧ ¬ Forall (λ e, user_id e = 0) (getLogs demo_logs (Some 0) 20).
Proof.
  split; [done|]. split; [by vm_compute|].
  intros Hall. apply Forall_inv in Hall. by vm_compute in Hall.
Qed.

(** * Further properties of the directory store *)
Section Admins.
Implicit Types (d : Db) (w : World).


(** X2.  After [removeAdmin] the id is no admin, the status of every other id
    is as before, and removing an id that was just added restores the
    set of admins. *)
Theorem removeAdmin_revokes (t : Z) (w : World) :
  isAdmin (db (removeAdmin t w)) t = false
  ∧ (∀ t', t' ≠ t → isAdmin (db (removeAdmin t w)) t' = isAdmin (db w) t')
  ∧ (isAdmin (db w) t = false →
     admins (db (removeAdmin t (addAdmin t w).2)) = admins (db w)).
Proof.
  split; [|split].
  - unfold isAdmin. cbn. apply bool_decide_eq_false.
    rewrite elem_of_difference, elem_of_singleton. intuition congruence.
  - intros t' Hne. unfold isAdmin. cbn. apply bool_decide_ext.
    rewrite elem_of_difference, elem_of_singleton. intuition congruence.
  - intros Hadm. unfold addAdmin. rewrite Hadm. cbn.
    unfold isAdmin in Hadm. apply bool_decide_eq_false in Hadm.
    apply set_eq. intros x.
    rewrite elem_of_difference, elem_of_union, elem_of_singleton.
    split; [intuition congruence|]. intros Hx. split; [by right|]. congruence.
Qed.
End Admins.

Lemma removeAdmin_revokes_witness :
  admins (db (removeAdmin 9 (addAdmin 9 demo_pool).2)) = admins (db demo_pool).
Proof.
  destruct (removeAdmin_revokes 9 demo_pool) as (_ & _ & Hback).
  apply Hback. by vm_compute.
Defined.

Section AgentLookup.
Implicit Types (d : Db) (w : World) (l : list Agent).

Lemma isAgent_false_iff d t :
  isAgent d t = false ↔ t ∉ a_telegram_id <$> agents d.
Proof.
  unfold isAgent. induction (agents d) as [|a l IH]; cbn.
  - split; [intros _; apply not_elem_of_nil|done].
  - unfold has_telegram_id at 1. rewrite not_elem_of_cons.
    destruct (Z.eqb_spec (a_telegram_id a) t) as [->|Hne]; cbn.
    + split; [done|]. by intros [? _].
    + rewrite IH. split; [intros; split; congruence|by intros [_ ?]].
Qed.

Lemma find_app_miss (f : Agent → bool) l x :
  find f l = None → find f (l ++ [x]) = (if f x then Some x else None).
Proof.
  induction l as [|a l IH]; cbn; [done|].
  destruct (f a); [done|]. apply IH.
Qed.

Lemma find_app_hit (f : Agent → bool) l x a :
  find f l = Some a → find f (l ++ [x]) = Some a.
Proof.
  induction l as [|b l IH]; cbn; [done|].
  destruct (f b); [done|]. apply IH.
Qed.

Lemma isAgent_false_find d t :
  isAgent d t = false → getAgentByTelegramId d t = None.
Proof.
  intros Hno. destruct (getAgentByTelegramId d t) eqn:Hfind; [|done].
  assert (isAgent d t = true) by (apply isAgent_getAgent; by eexists).
  congruence.
Qed.
End AgentLookup.

(** X3.  A telegram id that is no agent yet, while the counter of row ids is
    not exhausted, is registered: [addAgent] returns [true], the lookup by
    telegram id finds the new row, inactive, with the next row id, and the
    lookup of every other telegram id is as before.  A telegram id that is
    an agent already is refused and the world is untouched. *)
Theorem addAgent_registers (t : Z) (n : string) (w : World) :
  (isAgent (db w) t = false →
   agents_seq (db w) < max_rowid →
   (addAgent t n w).1 = true
   ∧ getAgentByTelegramId (db (addAgent t n w).2) t
     = Some (mkAgent (agents_seq (db w) + 1) t n false)
   ∧ isAgent (db (addAgent t n w).2) t = true
   ∧ ∀ t', t' ≠ t →
       getAgentByTelegramId (db (addAgent t n w).2) t'
       = getAgentByTelegramId (db w) t')
  ∧ (isAgent (db w) t = true → addAgent t n w = (false, w)).
Proof.
  split.
  - intros Hnew Hseq. unfold addAgent. rewrite Hnew.
    assert ((max_rowid <=? agents_seq (db w)) = false) as ->
      by (apply Z.leb_gt; lia).
    cbn.
    assert (getAgentByTelegramId
              (insert_agent t n (db w)) t
            = Some (mkAgent (agents_seq (db w) + 1) t n false)) as Hfound.
    { unfold getAgentByTelegramId, insert_agent. cbn.
      rewrite find_app_miss by by apply isAgent_false_find.
      unfold has_telegram_id. cbn. by rewrite Z.eqb_refl. }
    split; [done|]. split; [exact Hfound|]. split.
    + apply (proj2 (isAgent_getAgent (insert_agent t n (db w)) t)).
      rewrite Hfound. by eexists.
    + intros t' Hne. unfold getAgentByTelegramId, insert_agent. cbn.
      destruct (find (has_telegram_id t') (agents (db w))) as [a|] eqn:Hfind.
      * by apply find_app_hit.
      * rewrite find_app_miss by done. unfold has_telegram_id. cbn.
        destruct (Z.eqb_spec t t'); [congruence|done].
  - intros Hold. unfold addAgent. by rewrite Hold.
Qed.

Lemma addAgent_registers_witness :
  getAgentByTelegramId (db (addAgent 8 "Bo" demo_pool).2) 8
  = Some (mkAgent 2 8 "Bo" false)
  ∧ addAgent 7 "Ann again" demo_pool = (false, demo_pool).
Proof.
  destruct (addAgent_registers 8 "Bo" demo_pool) as [Hnew _].
  destruct (addAgent_registers 7 "Ann again" demo_pool) as [_ Hold].
  split.
  - destruct Hnew as (_ & Hfound & _); [by vm_compute..|]. exact Hfound.
  - apply Hold. by vm_compute.
Defined.

Section TelegramIds.
Implicit Types (d : Db) (w : World) (l : list Agent).

Lemma fmap_keeps_telegram_ids (f : Agent → Agent) l :
  (∀ a, a_telegram_id (f a) = a_telegram_id a) →
  a_telegram_id <$> (f <$> l) = a_telegram_id <$> l.
Proof.
  intros Hf. rewrite <- list_fmap_compose. apply list_fmap_ext.
  intros ? a _. apply Hf.
Qed.

Lemma activate_row_telegram_id i a :
  a_telegram_id (activate_row i a) = a_telegram_id a.
Proof. unfold activate_row. by destruct (has_id i a). Qed.

Lemma deactivate_row_telegram_id i a :
  a_telegram_id (deactivate_row i a) = a_telegram_id a.
Proof. unfold deactivate_row. by destruct (has_id i a). Qed.

Lemma setActiveAgent_telegram_ids i w :
  a_telegram_id <$> agents (db (setActiveAgent i w).2)
  = a_telegram_id <$> agents (db w).
Proof.
  unfold setActiveAgent. destruct (find _ _) as [row|]; [|done]. cbn.
  change (λ a, if has_id i a then set_active true a else a) with (activate_row i).
  rewrite !fmap_keeps_telegram_ids; auto using activate_row_telegram_id.
Qed.

Lemma deactivateAgent_telegram_ids i w :
  a_telegram_id <$> agents (db (deactivateAgent i w).2)
  = a_telegram_id <$> agents (db w).
Proof.
  unfold deactivateAgent. destruct (find _ _) as [row|]; [|done]. cbn.
  change (λ a, if has_id i a then set_active false a else a)
    with (deactivate_row i).
  rewrite fmap_keeps_telegram_ids; auto using deactivate_row_telegram_id.
Qed.

Lemma apply_op_telegram_ids_unique w o :
  telegram_ids_unique (db w) → telegram_ids_unique (db (apply_op w o)).
Proof.
  unfold telegram_ids_unique. intros Hnd.
  destruct o; cbn [apply_op]; try done.
  - unfold addAdmin. by destruct (isAdmin _ _).
  - unfold addAgent.
    destruct (isAgent (db w) telegramId) eqn:Hagent; [done|].
    destruct (max_rowid <=? _); [done|]. cbn.
    rewrite fmap_app. apply NoDup_app. split; [done|].
    split; [|apply NoDup_singleton].
    intros t Ht Hin. apply list_elem_of_singleton in Hin. cbn in Hin. subst t.
    by apply isAgent_false_iff in Hagent.
  - unfold removeAgent. destruct (find _ _) as [row|]; [|done]. cbn.
    eapply sublist_NoDup; [exact Hnd|]. apply fmap_sublist, sublist_filter.
  - by rewrite setActiveAgent_telegram_ids.
  - by rewrite deactivateAgent_telegram_ids.
  - pose proof (on_text_keeps_directory env ctx w) as [= -> _ _]. done.
  - pose proof (on_voice_keeps_directory env ctx w) as [= -> _ _]. done.
Qed.

Lemma reachable_telegram_ids_unique ops :
  telegram_ids_unique (db (apply_ops ops init_world)).
Proof.
  assert (∀ w, telegram_ids_unique (db w) →
               telegram_ids_unique (db (apply_ops ops w))) as Hall.
  { induction ops as [|o ops IH]; intros w Hw; [done|].
    cbn. apply IH, apply_op_telegram_ids_unique, Hw. }
  apply Hall. apply NoDup_nil_2.
Qed.

Lemma removed_telegram_id_gone i l row :
  NoDup (a_telegram_id <$> l) →
  find (has_id i) l = Some row →
  a_telegram_id row ∉ a_telegram_id <$> filter (λ a, a_id a ≠ i) l.
Proof.
  induction l as [|x l IH]; intros Hnd Hfind; [done|].
  cbn in Hnd. apply NoDup_cons in Hnd as [Hx Hnd].
  cbn in Hfind. rewrite filter_cons.
  destruct (has_id i x) eqn:Hid.
  - injection Hfind as <-. apply has_id_true in Hid.
    rewrite decide_False by (intros Hne; by apply Hne).
    intros Hin. apply Hx.
    apply list_elem_of_fmap in Hin as (a & Ha & Hin).
    apply list_elem_of_filter in Hin as [_ Hin].
    rewrite Ha. by apply list_elem_of_fmap_2.
  - apply has_id_false in Hid. rewrite decide_True by done.
    cbn. apply not_elem_of_cons. split; [|by apply IH].
    intros Heq. apply Hx. rewrite <- Heq.
    apply find_some in Hfind as [Hin _].
    apply list_elem_of_fmap_2. by apply list_elem_of_In.
Qed.

Lemma unique_telegram_id_find (f : Agent → bool) l a :
  NoDup (a_telegram_id <$> l) →
  find f l = Some a →
  find (has_telegram_id (a_telegram_id a)) l = Some a.
Proof.
  induction l as [|x l IH]; intros Hnd Hfind; [done|].
  cbn in Hnd. apply NoDup_cons in Hnd as [Hx Hnd].
  cbn in *. destruct (f x).
  - injection Hfind as <-. unfold has_telegram_id. by rewrite Z.eqb_refl.
  - unfold has_telegram_id at 1.
    destruct (Z.eqb_spec (a_telegram_id x) (a_telegram_id a)) as [Heq|_];
      [|by apply IH].
    exfalso. apply Hx. rewrite Heq.
    apply find_some in Hfind as [Hin _].
    apply list_elem_of_fmap_2. by apply list_elem_of_In.
Qed.
End TelegramIds.

(** X4.  In every state that a sequence of operations reaches from the empty
    database, no two agents share a telegram id; so after [removeAgent]
    of an existing agent its telegram id is no agent any more, and the
    lookup by that id finds nothing. *)
Theorem removeAgent_unregisters (ops : list Op) (agentId : Z) (row : Agent) :
  let w := apply_ops ops init_world in
  telegram_ids_unique (db w)
  ∧ (find (has_id agentId) (agents (db w)) = Some row →
     isAgent (db (removeAgent agentId w).2) (a_telegram_id row) = false
     ∧ getAgentByTelegramId (db (removeAgent agentId w).2) (a_telegram_id row)
       = None).
Proof.
  intros w. pose proof (reachable_telegram_ids_unique ops) as Hnd. fold w in Hnd.
  split; [done|]. intros Hrow.
  assert (isAgent (db (removeAgent agentId w).2) (a_telegram_id row) = false)
    as Hgone.
  { apply isAgent_false_iff. unfold removeAgent. rewrite Hrow. cbn.
    by apply removed_telegram_id_gone. }
  split; [done|]. by apply isAgent_false_find.
Qed.

Lemma removeAgent_unregisters_witness :
  isAgent (db (removeAgent 1 demo_two_users).2) 7 = false.
Proof.
  destruct (removeAgent_unregisters demo_ops 1 (mkAgent 1 7 "Ann" true))
    as [_ Hgone].
  destruct Hgone as [Hgone _]; [by vm_compute|]. exact Hgone.
Defined.

Section RowIds.
Implicit Types (d : Db) (w : World).

Lemma apply_op_seq_mono w o :
  agents_seq (db w) ≤ agents_seq (db (apply_op w o)).
Proof.
  destruct o; cbn [apply_op]; try (cbn; lia).
  - unfold addAdmin. destruct (isAdmin _ _); cbn; lia.
  - unfold addAgent. destruct (_ || _); cbn; lia.
  - unfold removeAgent. destruct (find _ _); cbn; lia.
  - unfold setActiveAgent. destruct (find _ _); cbn; lia.
  - unfold deactivateAgent. destruct (find _ _); cbn; lia.
  - pose proof (on_text_keeps_directory env ctx w) as [= _ -> _]. lia.
  - pose proof (on_voice_keeps_directory env ctx w) as [= _ -> _]. lia.
Qed.

Lemma apply_ops_seq_mono ops w :
  agents_seq (db w) ≤ agents_seq (db (apply_ops ops w)).
Proof.
  revert w. induction ops as [|o ops IH]; intros w; [cbn; lia|].
  cbn. etrans; [apply (apply_op_seq_mono w o)|apply IH].
Qed.
End RowIds.

(** X5.  Row ids are never reused: an agent that [addAgent] adds, after any
    further operations, gets a row id above the id of every agent that
    ever was in the table, removed or not. *)
Theorem agent_ids_never_reused (ops later : list Op) (a : Agent)
    (t : Z) (n : string) :
  let w := apply_ops ops init_world in
  let w2 := apply_ops later w in
  a ∈ agents (db w) →
  (addAgent t n w2).1 = true →
  ∃ row, agents (db (addAgent t n w2).2) = agents (db w2) ++ [row]
         ∧ a_telegram_id row = t
         ∧ a_id a < a_id row.
Proof.
  intros w w2 Ha Hadded.
  destruct (reachable_ok ops) as [[_ Hle] _]. fold w in Hle.
  rewrite Forall_forall in Hle. specialize (Hle a Ha).
  pose proof (apply_ops_seq_mono later w) as Hmono. fold w2 in Hmono.
  unfold addAgent in *. destruct (_ || _); [done|].
  eexists. cbn. split; [done|]. split; [done|]. cbn. lia.
Qed.

Lemma agent_ids_never_reused_witness :
  ∃ row, agents (db (addAgent 9 "Di"
                       (apply_ops [OpRemoveAgent 1] demo_two_users)).2)
         = agents (db (apply_ops [OpRemoveAgent 1] demo_two_users)) ++ [row]
         ∧ a_telegram_id row = 9
         ∧ 1 < a_id row.
Proof.
  apply (agent_ids_never_reused demo_ops [OpRemoveAgent 1]
           (mkAgent 1 7 "Ann" true) 9 "Di").
  - apply list_elem_of_In. vm_compute. by left.
  - by vm_compute.
Defined.

Lemma setActiveAgent_found i w row :
  find (has_id i) (agents (db w)) = Some row →
  setActiveAgent i w
  = (mkResult true ("Agent '" +:+ a_name row +:+ "' is now active"),
     saveDb (run (update_active true i) (run clear_active w))).
Proof. intros Hrow. unfold setActiveAgent. by rewrite Hrow. Qed.

(** X7.  Activating an agent twice is activating it once: the second call
    gives the same answer and the same database. *)
Theorem setActiveAgent_idempotent (agentId : Z) (w : World) :
  (setActiveAgent agentId (setActiveAgent agentId w).2).1
  = (setActiveAgent agentId w).1
  ∧ db (setActiveAgent agentId (setActiveAgent agentId w).2).2
    = db (setActiveAgent agentId w).2.
Proof.
  destruct (find (has_id agentId) (agents (db w))) as [row|] eqn:Hrow.
  - assert (exists_agent (db w) agentId) as Hex by by eexists.
    pose proof (setActiveAgent_agents agentId w Hex) as Hagents.
    assert (find (has_id agentId) (agents (db (setActiveAgent agentId w).2))
            = Some (activate_row agentId (set_active false row))) as Hrow'.
    { rewrite Hagents.
      rewrite !find_fmap_keeps_id, Hrow by auto using activate_row_id. done. }
    rewrite (setActiveAgent_found agentId _ _ Hrow').
    rewrite (setActiveAgent_found agentId w row Hrow) in *.
    cbn [fst snd] in *. split.
    + f_equal. unfold activate_row. by destruct (has_id agentId _).
    + cbn. f_equal. unfold clear_active, update_active. cbn. f_equal.
      rewrite <- !list_fmap_compose. apply list_fmap_ext.
      intros ? a _. cbn. unfold has_id. cbn.
      by destruct (a_id a =? agentId).
  - unfold setActiveAgent. by rewrite Hrow; cbn; rewrite Hrow.
Qed.

Section ActiveAgentLeaves.
Implicit Types (d : Db) (w : World) (l : list Agent).







End ActiveAgentLeaves.

(** X15.  No agent available.  An end user who writes while no agent is active
    only gets the notice: the database is unchanged and nothing is sent to
    any agent.  The same holds for a voice message, before any processing
    notice or transcription. *)
Theorem no_agent_available (env : Env) (w : World) :
  getActiveAgent (db w) = None →
  (∀ ctx,
     String.prefix "/" (t_text ctx) = false →
     isAdmin (db w) (from_id (t_from ctx)) = false →
     isAgent (db w) (from_id (t_from ctx)) = false →
     let w' := (on_text env ctx w).2 in
     db w' = db w
     ∧ trace w' = trace w ++ [Transport (Reply
         "Sorry, no support agents are available right now. Please try again later.")])
  ∧ (∀ ctx,
       isAgent (db w) (from_id (v_from ctx)) = false →
       isAdmin (db w) (from_id (v_from ctx)) = false →
       let w' := (on_voice env ctx w).2 in
       db w' = db w
       ∧ trace w' = trace w ++ [Transport (Reply
           "Sorry, no support agents are available right now.")]).
Proof.
  intros Hnone. split.
  - intros ctx Hp Hadmin Hagent. cbv zeta.
    by rewrite on_text_user, user_text_no_agent, reply_world.
  - intros ctx Hagent Hadmin. cbv zeta.
    by rewrite on_voice_user, user_voice_no_agent, reply_world.
Qed.

Lemma no_agent_available_witness :
  let w := apply_ops [OpAddAgent 7 "Ann"] init_world in
  db (on_text demo_env (mkTextCtx bob "hello" None) w).2 = db w.
Proof.
  intros w. destruct (no_agent_available demo_env w) as [Htext _];
    [by vm_compute|].
  apply (Htext (mkTextCtx bob "hello" None)); by vm_compute.
Defined.



Lemma find_other_after_delete i j (l : list Agent) :
  j ≠ i →
  find (has_id j) (filter (λ a, a_id a ≠ i) l) = find (has_id j) l.
Proof.
  intros Hne. induction l as [|x l IH]; [done|].
  destruct (decide (a_id x = i)) as [Hx|Hx].
  - rewrite filter_cons_False by (intros Hn; by apply Hn). cbn.
    assert (has_id j x = false) as -> by (apply has_id_false; congruence).
    exact IH.
  - rewrite filter_cons_True by done. cbn. by rewrite IH.
Qed.

(** X6.  [removeAgent] touches one agent only: the row of every other agent
    id, and the admin entry and the session of every other telegram id,
    are as before; the mappings and the log are not touched at all. *)
Theorem removeAgent_spares_others (agentId : Z) (row : Agent) (w : World) :
  find (has_id agentId) (agents (db w)) = Some row →
  let w' := (removeAgent agentId w).2 in
  (∀ j, j ≠ agentId →
        find (has_id j) (agents (db w')) = find (has_id j) (agents (db w)))
  ∧ (∀ t, t ≠ a_telegram_id row →
          isAdmin (db w') t = isAdmin (db w) t
          ∧ getAgentSession (db w') t = getAgentSession (db w) t)
  ∧ message_mappings (db w') = message_mappings (db w)
  ∧ conversation_logs (db w') = conversation_logs (db w).
Proof.
  intros Hrow. cbv zeta. unfold removeAgent. rewrite Hrow. cbn.
  split; [|split; [|done]].
  - intros j Hne. by apply find_other_after_delete.
  - intros t Hne. split.
    + unfold isAdmin. cbn. apply bool_decide_ext.
      rewrite elem_of_difference, elem_of_singleton. intuition congruence.
    + unfold getAgentSession. cbn. by apply lookup_delete_ne.
Qed.

Lemma removeAgent_spares_others_witness :
  let w := apply_ops [OpAddAgent 8 "Bo"; OpAddAdmin 8] demo_two_users in
  find (has_id 2) (agents (db (removeAgent 1 w).2))
  = Some (mkAgent 2 8 "Bo" false)
  ∧ isAdmin (db (removeAgent 1 w).2) 8 = true.
Proof.
  intros w.
  destruct (removeAgent_spares_others 1 (mkAgent 1 7 "Ann" true) w)
    as (Hrows & Hother & _); [by vm_compute|].
  split.
  - rewrite (Hrows 2) by lia. by vm_compute.
  - destruct (Hother 8) as [-> _]; [by vm_compute|]. by vm_compute.
Defined.



(** * The log only grows *)
Section LogGrows.
Implicit Types (d : Db) (w : World) (rows : list LogEntry).

Lemma logMessage_extends rows now u un a an dir msg w :
  log_extends rows (db w) →
  log_extends rows (db (logMessage now u un a an dir msg w)).
Proof. intros Hpre. unfold log_extends. cbn. by apply prefix_app_r. Qed.

Lemma on_text_log_extends rows env ctx :
  preserves (log_extends rows) (on_text env ctx).
Proof.
  unfold on_text, agent_text, user_text. cbv zeta.
  repeat first
    [ apply preserves_reply | apply preserves_ret | apply preserves_query
    | apply preserves_call
    | apply preserves_exec; intros ?;
      first [ apply logMessage_extends | by intros ? ]
    | apply preserves_bind; [|intros ?]
    | apply preserves_try_catch; [|intros ?]
    | match goal with
      | |- preserves _ (if ?b then _ else _) => destruct b
      | |- preserves _ (match ?x with _ => _ end) => destruct x
      end ].
Qed.

Lemma on_voice_log_extends rows env ctx :
  preserves (log_extends rows) (on_voice env ctx).
Proof.
  unfold on_voice, agent_voice, user_voice. cbv zeta.
  repeat first
    [ apply preserves_reply | apply preserves_ret | apply preserves_query
    | apply preserves_call
    | apply preserves_exec; intros ?;
      first [ apply logMessage_extends | by intros ? ]
    | apply preserves_bind; [|intros ?]
    | apply preserves_try_catch; [|intros ?]
    | match goal with
      | |- preserves _ (if ?b then _ else _) => destruct b
      | |- preserves _ (match ?x with _ => _ end) => destruct x
      end ].
Qed.

Lemma apply_op_log_extends rows w o :
  log_extends rows (db w) → log_extends rows (db (apply_op w o)).
Proof.
  destruct o; cbn [apply_op]; intros Hpre; try done.
  - unfold addAdmin. by destruct (isAdmin _ _).
  - unfold addAgent. by destruct (_ || _).
  - unfold removeAgent. by destruct (find _ _).
  - unfold setActiveAgent. by destruct (find _ _).
  - unfold deactivateAgent. by destruct (find _ _).
  - by apply logMessage_extends.
  - by apply on_text_log_extends.
  - by apply on_voice_log_extends.
Qed.
End LogGrows.

(** X12.  I3.  No operation removes or rewrites a log entry: after any sequence
    of operations the log starts with the log from before. *)
Theorem log_append_only (ops : list Op) (w : World) :
  conversation_logs (db w) `prefix_of` conversation_logs (db (apply_ops ops w)).
Proof.
  assert (∀ rows w0, log_extends rows (db w0) →
                     log_extends rows (db (apply_ops ops w0))) as Hall.
  { intros rows. induction ops as [|o ops IH]; intros w0 Hw0; [done|].
    cbn. apply IH. by apply apply_op_log_extends. }
  apply (Hall (conversation_logs (db w)) w). unfold log_extends. reflexivity.
Qed.

(** * What an update can do to the database *)
Section UpdateEffects.
Variable env : Env.
Implicit Types (w : World).

Lemma truthy_target t :
  truthy (targetUserId t) = true →
  ∃ uid, t = mkTarget (Some uid) (targetUserName t) ∧ uid ≠ 0.
Proof.
  destruct t as [[uid|] name]; cbn; [|done].
  intros Hu. exists uid. split; [done|].
  apply negb_true_iff, Z.eqb_neq in Hu. done.
Qed.

Lemma agent_text_effects ctx w :
  let w' := (agent_text env ctx w).2 in
  db w' = db w
  ∨ ∃ a uid name,
      getAgentByTelegramId (db w) (from_id (t_from ctx)) = Some a
      ∧ a_is_active a = true
      ∧ db w' = insert_log (mkLogEntry (now env) uid name (a_id a) (a_name a)
                              "agent_to_user" (t_text ctx)) (db w).
Proof.
  cbv zeta.
  destruct (truthy (targetUserId (resolve_target (db w)
              (t_reply_to_message ctx) (from_id (t_from ctx))))) eqn:Ht.
  - destruct (truthy_target _ Ht) as (uid & Htarget & Hu).
    destruct (getAgentByTelegramId (db w) (from_id (t_from ctx)))
      as [a|] eqn:Ha.
    + destruct (a_is_active a) eqn:Hact.
      * destruct (respond env (calls_made w)) as [message_id|e] eqn:Hr.
        -- right. exists a, uid, (targetUserName (resolve_target (db w)
                     (t_reply_to_message ctx) (from_id (t_from ctx)))).
           destruct (agent_text_sent env ctx w _ _ a message_id Htarget Hu Ha
                       Hact Hr) as (-> & _).
           done.
        -- left. by rewrite (agent_text_failed env ctx w _ _ a e Htarget Hu Ha
                               Hact Hr).
      * left. rewrite agent_text_offline, reply_world; [done|done|].
        rewrite Ha. cbn. by rewrite Hact.
    + left. rewrite agent_text_offline, reply_world; [done|done|].
      by rewrite Ha.
  - left. by rewrite agent_text_no_target, reply_world.
Qed.

Lemma agent_voice_effects ctx w :
  let w' := (agent_voice env ctx w).2 in
  db w' = db w
  ∨ ∃ a uid name,
      getAgentByTelegramId (db w) (from_id (v_from ctx)) = Some a
      ∧ a_is_active a = true
      ∧ db w' = insert_log (mkLogEntry (now env) uid name (a_id a) (a_name a)
                              "agent_to_user" "[Voice Message]") (db w).
Proof.
  cbv zeta.
  destruct (truthy (targetUserId (resolve_target (db w)
              (v_reply_to_message ctx) (from_id (v_from ctx))))) eqn:Ht.
  - destruct (truthy_target _ Ht) as (uid & Htarget & Hu).
    destruct (getAgentByTelegramId (db w) (from_id (v_from ctx)))
      as [a|] eqn:Ha.
    + destruct (a_is_active a) eqn:Hact.
      * destruct (respond env (calls_made w)) as [message_id|e] eqn:Hr.
        -- right. exists a, uid, (targetUserName (resolve_target (db w)
                     (v_reply_to_message ctx) (from_id (v_from ctx)))).
           destruct (agent_voice_sent env ctx w _ _ a message_id Htarget Hu Ha
                       Hact Hr) as (-> & _).
           done.
        -- left. by rewrite (agent_voice_failed env ctx w _ _ a e Htarget Hu Ha
                               Hact Hr).
      * left. rewrite agent_voice_offline, reply_world; [done|done|].
        rewrite Ha. cbn. by rewrite Hact.
    + left. rewrite agent_voice_offline, reply_world; [done|done|].
      by rewrite Ha.
  - left. by rewrite agent_voice_no_target, reply_world.
Qed.
End UpdateEffects.

(** X16.  Whatever the sender, the text and Telegram's answers, a text update
    leaves the database in one of three states: as it was; with one
    "agent_to_user" log entry appended, the sender being an active agent;
    or with the mapping, the session and the "user_to_agent" log entry of
    a forward to the active agent.  The same holds for a voice update. *)
Theorem update_effects (env : Env) (w : World) :
  (∀ ctx,
     let w' := (on_text env ctx w).2 in
     db w' = db w
     ∨ (∃ a uid name,
          getAgentByTelegramId (db w) (from_id (t_from ctx)) = Some a
          ∧ a_is_active a = true
          ∧ db w' = insert_log (mkLogEntry (now env) uid name (a_id a)
                                  (a_name a) "agent_to_user" (t_text ctx))
                      (db w))
     ∨ (∃ a message_id,
          getActiveAgent (db w) = Some a
          ∧ db w' = db (recorded env a (t_from ctx) message_id (t_text ctx) w)))
  ∧ (∀ ctx,
       let w' := (on_voice env ctx w).2 in
       db w' = db w
       ∨ (∃ a uid name,
            getAgentByTelegramId (db w) (from_id (v_from ctx)) = Some a
            ∧ a_is_active a = true
            ∧ db w' = insert_log (mkLogEntry (now env) uid name (a_id a)
                                    (a_name a) "agent_to_user"
                                    "[Voice Message]") (db w))
       ∨ (∃ a message_id,
            getActiveAgent (db w) = Some a
            ∧ db w' = db (recorded env a (v_from ctx) message_id
                            ("[Voice] " +:+ transcribeVoice env (v_file_id ctx))
                            w))).
Proof.
  split.
  - intros ctx. cbv zeta.
    destruct (String.prefix "/" (t_text ctx)) eqn:Hp;
      [left; by rewrite on_text_command|].
    destruct (isAdmin (db w) (from_id (t_from ctx))) eqn:Hadmin;
      [left; by rewrite on_text_admin, reply_world|].
    destruct (isAgent (db w) (from_id (t_from ctx))) eqn:Hagent.
    + rewrite on_text_agent by done.
      destruct (agent_text_effects env ctx w) as [?|?]; auto.
    + rewrite on_text_user by done.
      destruct (getActiveAgent (db w)) as [a|] eqn:Ha;
        [|left; by rewrite user_text_no_agent, reply_world].
      destruct (respond env (calls_made w)) as [message_id|e] eqn:Hr.
      * right. right. exists a, message_id. split; [done|].
        destruct (user_text_sent env ctx w a message_id Ha Hr) as (-> & _).
        done.
      * left. by rewrite (user_text_failed env ctx w a e Ha Hr).
  - intros ctx. cbv zeta.
    destruct (isAgent (db w) (from_id (v_from ctx))) eqn:Hagent.
    + rewrite on_voice_agent by done.
      destruct (agent_voice_effects env ctx w) as [?|?]; auto.
    + destruct (isAdmin (db w) (from_id (v_from ctx))) eqn:Hadmin;
        [left; by rewrite on_voice_admin, reply_world|].
      rewrite on_voice_user by done.
      destruct (getActiveAgent (db w)) as [a|] eqn:Ha;
        [|left; by rewrite user_voice_no_agent, reply_world].
      destruct (respond env (calls_made w)) as [ok|e] eqn:Hok;
        [|left; by rewrite (user_voice_unannounced env ctx w a e Ha Hok)].
      destruct (respond env (S (calls_made w))) as [message_id|e] eqn:Hr.
      * right. right. exists a, message_id. split; [done|].
        destruct (user_voice_sent env ctx w a ok message_id Ha Hok Hr)
          as (-> & _).
        done.
      * left. by rewrite (user_voice_failed env ctx w a ok e Ha Hok Hr).
Qed.

(** * Routing follows the activation *)
Section RoutingAfterActivation.
Implicit Types (w : World).

Lemma setActiveAgent_keeps_roles i w t :
  isAdmin (db (setActiveAgent i w).2) t = isAdmin (db w) t
  ∧ isAgent (db (setActiveAgent i w).2) t = isAgent (db w) t.
Proof.
  split.
  - unfold setActiveAgent. by destruct (find _ _).
  - destruct (isAgent (db w) t) eqn:Hagent.
    + apply not_false_iff_true. intros Hno. apply isAgent_false_iff in Hno.
      rewrite setActiveAgent_telegram_ids in Hno.
      apply isAgent_false_iff in Hno. congruence.
    + apply isAgent_false_iff. rewrite setActiveAgent_telegram_ids.
      by apply isAgent_false_iff.
Qed.
End RoutingAfterActivation.

(** X18.  After [setActiveAgent] of an existing agent that agent is the active
    one, and the next text of an end user is forwarded to its telegram
    id: the forward is the first call that the handler makes. *)
Theorem routing_follows_activation (env : Env) (w : World) (agentId : Z)
    (row : Agent) (ctx : TextCtx) :
  find (has_id agentId) (agents (db w)) = Some row →
  String.prefix "/" (t_text ctx) = false →
  isAdmin (db w) (from_id (t_from ctx)) = false →
  isAgent (db w) (from_id (t_from ctx)) = false →
  let w1 := (setActiveAgent agentId w).2 in
  getActiveAgent (db w1) = Some (set_active true row)
  ∧ ∃ rest,
      trace (on_text env ctx w1).2
      = trace w1 ++ Transport (SendMessage (a_telegram_id row)
                                 (forwardText (t_from ctx) (t_text ctx)) true)
          :: rest.
Proof.
  intros Hrow Hp Hadmin Hagent w1.
  assert (getActiveAgent (db w1) = Some (set_active true row)) as Hactive.
  { unfold getActiveAgent. subst w1.
    rewrite setActiveAgent_agents by by eexists.
    by rewrite find_active_after_activate, Hrow. }
  split; [done|].
  destruct (setActiveAgent_keeps_roles agentId w (from_id (t_from ctx)))
    as [Hadm Hagt].
  fold w1 in Hadm, Hagt.
  rewrite on_text_user by congruence.
  destruct (respond env (calls_made w1)) as [message_id|e] eqn:Hr.
  - destruct (user_text_sent env ctx w1 _ message_id Hactive Hr)
      as (_ & rest & -> & _).
    match goal with
    | |- context [trace (recorded _ ?a ?f ?m ?logged ?w0)] =>
        destruct (recorded_trace env a f m logged w0)
          as (d1 & d2 & d3 & -> & _)
    end.
    eexists. cbn. by rewrite <- !app_assoc.
  - rewrite (user_text_failed env ctx w1 _ e Hactive Hr).
    eexists. cbn. by rewrite <- app_assoc.
Qed.

Lemma routing_follows_activation_witness :
  let w := apply_ops [OpAddAgent 7 "Ann"; OpAddAgent 8 "Bo";
                      OpSetActiveAgent 1] init_world in
  getActiveAgent (db (setActiveAgent 2 w).2) = Some (mkAgent 2 8 "Bo" true).
Proof.
  intros w.
  destruct (routing_follows_activation demo_env w 2 (mkAgent 2 8 "Bo" false)
              (mkTextCtx bob "hello" None)) as [Hactive _];
    [by vm_compute..|].
  exact Hactive.
Defined.

(** * From the user to the agent and back *)

(** X19.  In every reachable state: when the text of an end user is forwarded
    to the active agent, the next text of that agent — threaded to the
    forwarded message, or with no thread at all — is sent to that user. *)
Theorem conversation_round_trip (ops : list Op) (envU envA : Env)
    (ctxU ctxA : TextCtx) (a : Agent) (M : Z) :
  let w := apply_ops ops init_world in
  from_id (t_from ctxU) ≠ 0 →
  String.prefix "/" (t_text ctxU) = false →
  isAdmin (db w) (from_id (t_from ctxU)) = false →
  isAgent (db w) (from_id (t_from ctxU)) = false →
  getActiveAgent (db w) = Some a →
  respond envU (calls_made w) = Sent M →
  from_id (t_from ctxA) = a_telegram_id a →
  String.prefix "/" (t_text ctxA) = false →
  isAdmin (db w) (a_telegram_id a) = false →
  t_reply_to_message ctxA = None ∨ t_reply_to_message ctxA = Some M →
  let w1 := (on_text envU ctxU w).2 in
  ∃ rest,
    trace (on_text envA ctxA w1).2
    = trace w1 ++ Transport (SendMessage (from_id (t_from ctxU))
                               (t_text ctxA) false) :: rest.
Proof.
  intros w HU HpU HadminU HagentU Hactive HM Hfrom HpA HadminA Hreply w1.
  pose proof (reachable_telegram_ids_unique ops) as Hnd. fold w in Hnd.
  assert (db w1 = db (recorded envU a (t_from ctxU) M (t_text ctxU) w)) as Hdb.
  { subst w1. rewrite on_text_user by done.
    destruct (user_text_sent envU ctxU w a M Hactive HM) as (-> & _). done. }
  assert (getAgentByTelegramId (db w1) (from_id (t_from ctxA)) = Some a) as Ha.
  { rewrite Hdb, Hfrom. unfold getAgentByTelegramId. cbn.
    by apply (unique_telegram_id_find a_is_active). }
  assert (a_is_active a = true) as Hact
    by (unfold getActiveAgent in Hactive; by apply find_some in Hactive as [_ ?]).
  assert (isAdmin (db w1) (from_id (t_from ctxA)) = false) as Hadm
    by (rewrite Hdb, Hfrom; exact HadminA).
  assert (isAgent (db w1) (from_id (t_from ctxA)) = true) as Hagt
    by (apply isAgent_getAgent; by eexists).
  assert (resolve_target (db w1) (t_reply_to_message ctxA)
            (from_id (t_from ctxA))
          = mkTarget (Some (from_id (t_from ctxU)))
              (userDisplayName_of (t_from ctxU))) as Ht.
  { rewrite Hdb, Hfrom. destruct Hreply as [-> | ->].
    - unfold resolve_target, target_of_mapping, getAgentSession. cbn.
      by rewrite lookup_insert_eq.
    - apply (resolve_target_mapping _ _ _
               (mkUserRef (from_id (t_from ctxU))
                  (userDisplayName_of (t_from ctxU)))); [|done].
      unfold getMessageMapping. cbn. apply lookup_insert_eq. }
  rewrite on_text_agent by done.
  destruct (respond envA (calls_made w1)) as [message_id|e] eqn:Hr.
  - destruct (agent_text_sent envA ctxA w1 _ _ a message_id Ht HU Ha Hact Hr)
      as (_ & rest & -> & _).
    eexists. cbn. by rewrite <- !app_assoc.
  - rewrite (agent_text_failed envA ctxA w1 _ _ a e Ht HU Ha Hact Hr).
    eexists. cbn. by rewrite <- app_assoc.
Qed.

Lemma conversation_round_trip_witness :
  let w1 := (on_text demo_env (mkTextCtx bob "hello" None) demo_pool).2 in
  ∃ rest,
    trace (on_text demo_env (mkTextCtx ann "hi Bob" None) w1).2
    = trace w1 ++ Transport (SendMessage 41 "hi Bob" false) :: rest.
Proof.
  apply (conversation_round_trip [OpAddAgent 7 "Ann"; OpSetActiveAgent 1]
           demo_env demo_env (mkTextCtx bob "hello" None)
           (mkTextCtx ann "hi Bob" None) (mkAgent 1 7 "Ann" true) 100);
    try by vm_compute.
  by left.
Defined.

(** * Pages of the log *)

(** X13.  A page of the log is sound: for a non-zero user id and a limit that
    is not negative, [getLogs] returns at most [N] entries, each an entry
    of the log with that user id, newest first; without a user id the
    same bound and order hold over the whole log; and when no entry
    matches, the page is the empty list. *)
Theorem getLogs_page_sound (d : Db) (U N : Z) :
  U ≠ 0 → 0 ≤ N →
  (Z.of_nat (length (getLogs d (Some U) N)) ≤ N
   ∧ Forall (λ e, user_id e = U ∧ e ∈ conversation_logs d)
       (getLogs d (Some U) N)
   ∧ StronglySorted newer_first (getLogs d (Some U) N))
  ∧ (Z.of_nat (length (getLogs d None N)) ≤ N
     ∧ Forall (λ e, e ∈ conversation_logs d) (getLogs d None N)
     ∧ StronglySorted newer_first (getLogs d None N))
  ∧ (Forall (λ e, user_id e ≠ U) (conversation_logs d) →
     getLogs d (Some U) N = []).
Proof.
  intros HU HN. split; [|split].
  - by apply getLogs_filtered.
  - by apply getLogs_unfiltered.
  - by apply getLogs_no_match.
Qed.

Lemma getLogs_page_sound_witness :
  Z.of_nat (length (getLogs demo_logs (Some 42) 20)) ≤ 20
  ∧ Forall (λ e, user_id e = 42 ∧ e ∈ conversation_logs demo_logs)
      (getLogs demo_logs (Some 42) 20)
  ∧ StronglySorted newer_first (getLogs demo_logs (Some 42) 20).
Proof.
  destruct (getLogs_page_sound demo_logs 42 20) as [Hpage _]; [lia..|].
  exact Hpage.
Defined.

(** X14.  A page misses nothing while the limit allows: with a limit that is
    negative (no limit for SQLite) or not below the number of matching
    entries, the page of a non-zero user id is a permutation of all
    entries of that user, and the unfiltered page a permutation of the
    whole log. *)
Theorem getLogs_complete (d : Db) (U N : Z) :
  U ≠ 0 →
  (N < 0 ∨ Z.of_nat (length (filter (λ e, user_id e = U)
                               (conversation_logs d))) ≤ N →
   getLogs d (Some U) N ≡ₚ filter (λ e, user_id e = U) (conversation_logs d))
  ∧ (N < 0 ∨ Z.of_nat (length (conversation_logs d)) ≤ N →
     getLogs d None N ≡ₚ conversation_logs d).
Proof.
  intros HU.
  assert (∀ rows : list LogEntry,
            N < 0 ∨ Z.of_nat (length rows) ≤ N →
            sql_limit N (order_by_timestamp_desc rows) ≡ₚ rows) as Hpage.
  { intros rows Hlim. unfold sql_limit, order_by_timestamp_desc.
    destruct (Z.ltb_spec N 0) as [|Hpos]; [apply merge_sort_Permutation|].
    destruct Hlim as [|Hlen]; [lia|].
    rewrite take_ge; [apply merge_sort_Permutation|].
    rewrite (Permutation_length (merge_sort_Permutation newer_first rows)).
    lia. }
  assert (filter (λ e, Some (user_id e) = Some U) (conversation_logs d)
          = filter (λ e, user_id e = U) (conversation_logs d)) as Hfilter.
  { apply list_filter_iff. intros e. split; congruence. }
  split.
  - intros Hlim. unfold getLogs. cbn.
    apply Z.eqb_neq in HU. rewrite HU. cbn.
    rewrite Hfilter. by apply Hpage.
  - intros Hlim. unfold getLogs. cbn. by apply Hpage.
Qed.

Lemma getLogs_complete_witness :
  getLogs demo_logs (Some 41) 20
  ≡ₚ filter (λ e, user_id e = 41) (conversation_logs demo_logs).
Proof.
  destruct (getLogs_complete demo_logs 41 20) as [Hpage _]; [lia|].
  apply Hpage. right. vm_compute. discriminate.
Defined.

(** * Notices *)
Section Notices.
Implicit Types (s needle haystack : string).

Lemma append_cons c s1 s2 : String c s1 +:+ s2 = String c (s1 +:+ s2).
Proof. reflexivity. Qed.

Lemma append_nil s : "" +:+ s = s.
Proof. reflexivity. Qed.

Lemma prefix_iff s1 s2 :
  String.prefix s1 s2 = true ↔ ∃ rest, s2 = s1 +:+ rest.
Proof.
  revert s2. induction s1 as [|a s1 IH]; intros s2.
  - destruct s2; cbn; (split; [intros _; by eexists|done]).
  - destruct s2 as [|b s2]; cbn.
    + split; [done|]. intros [rest Hrest]. by rewrite append_cons in Hrest.
    + destruct (ascii_dec a b) as [->|Hne].
      * rewrite IH. split; intros [rest Hrest]; exists rest.
        -- by rewrite append_cons, Hrest.
        -- rewrite append_cons in Hrest. congruence.
      * split; [done|]. intros [rest Hrest].
        rewrite append_cons in Hrest. congruence.
Qed.

Lemma includes_here needle haystack :
  String.prefix needle haystack = true → includes needle haystack = true.
Proof. intros Hp. destruct haystack; cbn [includes]; by rewrite Hp. Qed.

Lemma includes_later needle c haystack :
  includes needle haystack = true →
  includes needle (String c haystack) = true.
Proof. intros Hin. cbn [includes]. rewrite Hin. apply orb_true_r. Qed.
End Notices.

(** [includes] is the substring test: it holds exactly when the haystack
    is some text, the needle, and some more text. *)
Theorem includes_iff (needle haystack : string) :
  includes needle haystack = true
  ↔ ∃ before after, haystack = before +:+ needle +:+ after.
Proof.
  split.
  - induction haystack as [|c haystack IH].
    + cbn [includes]. rewrite orb_false_r. intros [rest Hrest]%prefix_iff.
      exists "", rest. by rewrite append_nil.
    + cbn [includes]. intros [Hp|Hin]%orb_true_iff.
      * apply prefix_iff in Hp as [rest Hrest]. exists "", rest.
        by rewrite append_nil.
      * destruct (IH Hin) as (before & after & ->).
        exists (String c before), after. by rewrite append_cons.
  - intros (before & after & ->).
    induction before as [|c before IH].
    + rewrite append_nil. apply includes_here, prefix_iff. by eexists.
    + rewrite append_cons. by apply includes_later.
Qed.

(** X20.  The end user is told that the agent has to start the bot exactly when
    the error text of Telegram contains "chat not found" or
    "bot was blocked"; every other failure gets the retry notice. *)
Theorem forward_error_notice_cases (e : string) :
  (forward_error_notice e
   = "❌ Technical Error: The agent hasn't started the bot or has blocked it. Agents must send /start to the bot first!"
   ↔ (∃ before after, e = before +:+ "chat not found" +:+ after)
     ∨ (∃ before after, e = before +:+ "bot was blocked" +:+ after))
  ∧ (forward_error_notice e
     = "Sorry, there was an error sending your message. Please try again."
     ↔ includes "chat not found" e = false
       ∧ includes "bot was blocked" e = false).
Proof.
  rewrite <- !includes_iff. unfold forward_error_notice.
  destruct (includes "chat not found" e), (includes "bot was blocked" e);
    cbn; split; split; try done; intuition discriminate.
Qed.


(** * Start-up *)
Section Setup.
Implicit Types (w : World) (initial : list (Z * string)).








End Setup.



(** * The admin commands *)
Section CommandFacts.
Variable parseInt : string → option Z.
Variable rows_modified : World → bool.
Variable env : Env.
Implicit Types (w : World) (ctx : CommandCtx).

Lemma reply_markdown_world ctx text w :
  (reply_markdown env ctx text w).2
  = emit (SendMessage (c_chat_id ctx) text true) w.
Proof.
  unfold reply_markdown, bind, call, ret. by destruct (respond env _).
Qed.

Lemma split_on_not_nil sep s : split_on sep s ≠ [].
Proof.
  destruct s as [|c s]; cbn; [done|].
  destruct (Ascii.eqb c sep); [done|]. by destruct (split_on sep s).
Qed.

Lemma split_on_word sep word rest :
  split_on sep word = [word] →
  split_on sep (word +:+ String sep rest) = word :: split_on sep rest.
Proof.
  induction word as [|c word IH]; intros Hword.
  - rewrite append_nil. cbn. by rewrite Ascii.eqb_refl.
  - rewrite append_cons. cbn in *.
    destruct (Ascii.eqb c sep); [done|].
    destruct (split_on sep word) as [|part parts] eqn:Hparts;
      [by apply split_on_not_nil in Hparts|].
    injection Hword as -> ->. by rewrite IH.
Qed.

Lemma join_with_cons sep part part' parts :
  join_with sep (part :: part' :: parts)
  = part +:+ sep +:+ join_with sep (part' :: parts).
Proof. reflexivity. Qed.

Lemma join_split s : join_with " " (split_on " "%char s) = s.
Proof.
  induction s as [|c s IH]; [done|]. cbn [split_on].
  destruct (split_on " "%char s) as [|part parts] eqn:Hparts;
    [by apply split_on_not_nil in Hparts|].
  destruct (Ascii.eqb_spec c " "%char) as [->|_].
  - by rewrite join_with_cons, IH.
  - destruct parts as [|part' parts].
    + cbn in *. by rewrite IH.
    + rewrite join_with_cons in *. by rewrite append_cons, IH.
Qed.
End CommandFacts.

(** X23.  Only admins change the directory through the bot: each of the five
    commands that write, sent by someone who is no admin, is answered
    with "Admin only command." and does nothing else, whatever its
    arguments. *)
Theorem admin_commands_refuse_others (parseInt : string → option Z)
    (rows_modified : World → bool) (env : Env) (ctx : CommandCtx) (w : World) :
  isAdmin (db w) (from_id (c_from ctx)) = false →
  let refused := emit (Reply admin_only_notice) w in
  (addagent parseInt env ctx w).2 = refused
  ∧ (removeagent parseInt env ctx w).2 = refused
  ∧ (setactive parseInt env ctx w).2 = refused
  ∧ (addadmin parseInt env ctx w).2 = refused
  ∧ (removeadmin parseInt rows_modified env ctx w).2 = refused.
Proof.
  intros Hadmin. cbv zeta.
  unfold addagent, removeagent, setactive, addadmin, removeadmin.
  unfold bind at 1 3 5 7 9, query. rewrite Hadmin. cbn [negb].
  by rewrite !reply_world.
Qed.

Lemma admin_commands_refuse_others_witness :
  (removeagent demo_parseInt demo_env
     (mkCommandCtx bob 41 "/removeagent 1") demo_two_users).2
  = emit (Reply admin_only_notice) demo_two_users.
Proof.
  destruct (admin_commands_refuse_others demo_parseInt (λ _, false) demo_env
              (mkCommandCtx bob 41 "/removeagent 1") demo_two_users)
    as (_ & Hrefused & _); [by vm_compute|].
  exact Hrefused.
Defined.

(** X24.  An admin cannot take the admin status from themselves with
    [/removeadmin]: whatever the arguments, the sender is an admin
    afterwards. *)
Theorem removeadmin_keeps_sender (parseInt : string → option Z)
    (rows_modified : World → bool) (env : Env) (ctx : CommandCtx) (w : World) :
  isAdmin (db w) (from_id (c_from ctx)) = true →
  isAdmin (db (removeadmin parseInt rows_modified env ctx w).2)
    (from_id (c_from ctx)) = true.
Proof.
  intros Hadmin.
  assert (preserves (λ d, isAdmin d (from_id (c_from ctx)) = true)
            (removeadmin parseInt rows_modified env ctx)) as Hkeeps;
    [|by apply Hkeeps].
  unfold removeadmin.
  apply preserves_bind; [apply preserves_query|intros admin].
  destruct (negb admin); [apply preserves_reply|]. cbv zeta.
  destruct (length (command_args ctx) <? 1)%nat.
  { apply preserves_bind; [apply preserves_call|intros; apply preserves_ret]. }
  destruct (parseInt _) as [adminId|]; [|apply preserves_reply].
  destruct (Z.eqb_spec adminId (from_id (c_from ctx))) as [|Hne];
    [apply preserves_reply|].
  apply preserves_bind.
  - intros w0 Hw0. unfold run_db. cbn [snd].
    destruct (removeAdmin_revokes adminId w0) as (_ & Hother & _).
    rewrite Hother by congruence. done.
  - intros removed. destruct removed; [|apply preserves_reply].
    apply preserves_bind; [apply preserves_call|intros; apply preserves_ret].
Qed.

Lemma removeadmin_keeps_sender_witness :
  isAdmin (db (removeadmin demo_parseInt (λ _, true) demo_env
                 (mkCommandCtx ann 7 "/removeadmin 7") demo_admin_agent).2) 7
  = true.
Proof.
  apply (removeadmin_keeps_sender demo_parseInt (λ _, true) demo_env
           (mkCommandCtx ann 7 "/removeadmin 7") demo_admin_agent).
  by vm_compute.
Defined.

(** X25.  [/addagent <id> <name>] of an admin registers the agent under the
    whole rest of the line as its name, spaces included: when the id
    argument is one word that [parseInt] reads as a telegram id that is
    no agent yet, the lookup by that id afterwards finds the new row with
    exactly that name. *)
Theorem addagent_registers_name (parseInt : string → option Z) (env : Env)
    (from : From) (chat : Z) (command idArg name : string) (t : Z)
    (w : World) :
  isAdmin (db w) (from_id from) = true →
  split_on " "%char command = [command] →
  split_on " "%char idArg = [idArg] →
  parseInt idArg = Some t →
  isAgent (db w) t = false →
  agents_seq (db w) < max_rowid →
  let ctx := mkCommandCtx from chat
               (command +:+ " " +:+ idArg +:+ " " +:+ name) in
  getAgentByTelegramId (db (addagent parseInt env ctx w).2) t
  = Some (mkAgent (agents_seq (db w) + 1) t name false).
Proof.
  intros Hadmin Hcommand HidArg Hparse Hnew Hroom ctx.
  assert (command_args ctx = idArg :: split_on " "%char name) as Hargs.
  { unfold command_args, ctx. cbn [c_text].
    change (" " +:+ idArg +:+ " " +:+ name)
      with (String " "%char (idArg +:+ String " "%char name)).
    rewrite split_on_word by done. cbn [drop].
    by rewrite split_on_word. }
  unfold addagent. unfold bind at 1, query. cbn [c_from ctx].
  fold ctx. rewrite Hadmin. cbn [negb]. cbv zeta. rewrite Hargs.
  assert ((length (idArg :: split_on " "%char name) <? 2)%nat = false) as ->.
  { apply Nat.ltb_ge. cbn.
    destruct (split_on " "%char name) eqn:Hparts;
      [by apply split_on_not_nil in Hparts|cbn; lia]. }
  cbn [head default drop id]. rewrite !drop_0, join_split, Hparse.
  destruct (addAgent_registers t name w) as [Hregistered _].
  destruct (Hregistered Hnew Hroom) as (Hadded & Hfound & _).
  unfold bind at 1, run_db.
  destruct (addAgent t name w) as [added w'] eqn:Hadd. cbn in *. subst added.
  by rewrite reply_world.
Qed.

Lemma addagent_registers_name_witness :
  getAgentByTelegramId
    (db (addagent demo_parseInt demo_env
           (mkCommandCtx ann 7 "/addagent 8 Bo Lee") demo_admin_agent).2) 8
  = Some (mkAgent 2 8 "Bo Lee" false).
Proof.
  apply (addagent_registers_name demo_parseInt demo_env ann 7
           "/addagent" "8" "Bo Lee" 8 demo_admin_agent);
    by vm_compute.
Defined.

(** * Taking an agent offline *)

Lemma find_other_after_deactivate i j (l : list Agent) :
  j ≠ i →
  find (has_id j) (deactivate_row i <$> l) = find (has_id j) l.
Proof.
  intros Hne. rewrite find_fmap_keeps_id by apply deactivate_row_id.
  destruct (find (has_id j) l) as [r|] eqn:Hr; [|done].
  apply find_has_id_Some in Hr. cbn. f_equal.
  unfold deactivate_row.
  assert (has_id i r = false) as -> by (apply has_id_false; congruence).
  done.
Qed.

(** X8.  [deactivateAgent] of an existing agent clears the flag of that agent
    and nothing else: the rows of the other agents, the admins, the
    sessions, the mappings and the log are as before, so a session of the
    agent survives its going offline.  For an id that no agent has it
    fails with "Agent not found" and leaves the world as it was. *)
Theorem deactivateAgent_clears_one (agentId : Z) (w : World) :
  match find (has_id agentId) (agents (db w)) with
  | Some row =>
      let w' := (deactivateAgent agentId w).2 in
      success (deactivateAgent agentId w).1 = true
      ∧ find (has_id agentId) (agents (db w')) = Some (set_active false row)
      ∧ (∀ j, j ≠ agentId →
              find (has_id j) (agents (db w')) = find (has_id j) (agents (db w)))
      ∧ admins (db w') = admins (db w)
      ∧ agent_sessions (db w') = agent_sessions (db w)
      ∧ message_mappings (db w') = message_mappings (db w)
      ∧ conversation_logs (db w') = conversation_logs (db w)
  | None =>
      deactivateAgent agentId w = (mkResult false "Agent not found", w)
  end.
Proof.
  unfold deactivateAgent.
  destruct (find (has_id agentId) (agents (db w))) as [row|] eqn:Hrow; [|done].
  cbn. change (λ a, if has_id agentId a then set_active false a else a)
    with (deactivate_row agentId).
  split; [done|]. split; [|split; [|done]].
  - rewrite find_fmap_keeps_id, Hrow by apply deactivate_row_id. cbn.
    apply find_has_id_Some in Hrow. unfold deactivate_row, has_id.
    by rewrite Hrow, Z.eqb_refl.
  - intros j Hne. by apply find_other_after_deactivate.
Qed.

(** * What a message never changes *)

(** X17.  No text and no voice message, whoever sends it and whatever Telegram
    answers, changes the table of agents (rows, flags, counter of ids) or
    the set of admins. *)
Theorem updates_keep_directory (env : Env) (w : World) :
  (∀ ctx, agents (db (on_text env ctx w).2) = agents (db w)
          ∧ agents_seq (db (on_text env ctx w).2) = agents_seq (db w)
          ∧ admins (db (on_text env ctx w).2) = admins (db w))
  ∧ (∀ ctx, agents (db (on_voice env ctx w).2) = agents (db w)
            ∧ agents_seq (db (on_voice env ctx w).2) = agents_seq (db w)
            ∧ admins (db (on_voice env ctx w).2) = admins (db w)).
Proof.
  split; intros ctx.
  - by pose proof (on_text_keeps_directory env ctx w) as [= -> -> ->].
  - by pose proof (on_voice_keeps_directory env ctx w) as [= -> -> ->].
Qed.





Lemma deactivateAgent_clears_one_witness :
  find (has_id 1) (agents (db (deactivateAgent 1 demo_two_users).2))
  = Some (mkAgent 1 7 "Ann" false)
  ∧ agent_sessions (db (deactivateAgent 1 demo_two_users).2)
    = agent_sessions (db demo_two_users).
Proof.
  pose proof (deactivateAgent_clears_one 1 demo_two_users) as Hspec.
  assert (find (has_id 1) (agents (db demo_two_users))
          = Some (mkAgent 1 7 "Ann" true)) as Hrow by by vm_compute.
  rewrite Hrow in Hspec. destruct Hspec as (_ & Hflag & _ & _ & Hs & _).
  exact (conj Hflag Hs).
Defined.
